(** * AI Voice API: a shallow embedding of [main.py] and [schemas.py]

    The service is a set of FastAPI route handlers.  Every handler is a short
    synchronous call chain over four external collaborators: the wall clock
    ([datetime.utcnow]), the text-to-speech engine ([gTTS]), the persistence
    gateway ([database.create_document], [database.get_documents] and the
    global [database.db]) and the request validation done by the framework
    from the schemas of [schemas.py].

    The handlers are embedded as programs over a signature of external calls
    ([Prog]); a program is run against an arbitrary environment ([Oracle])
    and yields the handler's outcome together with the log of the calls it
    made and the answers it got.  The pure parts (string handling, time
    formatting, schema validation) are ordinary functions. *)

From Stdlib Require Import ZArith List String Ascii Bool Lia.
From stdpp Require Import base gmap strings list fin_maps.

Open Scope string_scope.
Open Scope Z_scope.

(** ** Python strings

    A Python [str] is a sequence of code points.  The model uses [string];
    each [ascii] stands for the code point of the same number (0..255). *)

Module Py.

Definition code (c : ascii) : Z := Z.of_N (N_of_ascii c).

(** [str.isspace] on one character, for the code points below 256:
    TAB, LF, VT, FF, CR, the four separators FS..US, SPACE, NEL and NBSP. *)
Definition isspace (c : ascii) : bool :=
  let n := code c in
  ((9 <=? n) && (n <=? 13)) || ((28 <=? n) && (n <=? 32))
  || (n =? 133) || (n =? 160).

(** [s.lstrip()] *)
Fixpoint lstrip (s : string) : string :=
  match s with
  | EmptyString => EmptyString
  | String c s' => if isspace c then lstrip s' else s
  end.

(** [s.rstrip()]: a trailing run of whitespace is dropped. *)
Fixpoint rstrip (s : string) : string :=
  match s with
  | EmptyString => EmptyString
  | String c s' =>
      match rstrip s' with
      | EmptyString => if isspace c then EmptyString else String c EmptyString
      | r => String c r
      end
  end.

(** [s.strip()] *)
Definition strip (s : string) : string := rstrip (lstrip s).

(** Every character of [s] is whitespace (true of the empty string). *)
Fixpoint blank (s : string) : bool :=
  match s with
  | EmptyString => true
  | String c s' => isspace c && blank s'
  end.

(** Truth value of a string: [bool(s)], false exactly for [""]. *)
Definition truthy (s : string) : bool :=
  match s with EmptyString => false | _ => true end.

(** [a or b] on strings. *)
Definition or_ (a b : string) : string := if truthy a then a else b.

(** [str.lower] on one character, for the code points below 256: the
    letters A..Z and the Latin-1 capitals (all but the multiplication
    sign) move 32 places up. *)
Definition lower_char (c : ascii) : ascii :=
  let n := code c in
  if ((65 <=? n) && (n <=? 90))
     || ((192 <=? n) && (n <=? 222) && negb (n =? 215))
  then ascii_of_N (Z.to_N (n + 32)) else c.

Fixpoint lower (s : string) : string :=
  match s with
  | EmptyString => EmptyString
  | String c s' => String (lower_char c) (lower s')
  end.

(** [s.startswith(p)] and [s.endswith(p)] *)
Definition startswith (s p : string) : bool := String.prefix p s.

Definition endswith (s p : string) : bool :=
  let n := String.length s in
  let m := String.length p in
  (m <=? n)%nat && String.eqb (String.substring (n - m) m s) p.

(** [os.path.join(a, b)] of [posixpath]. *)
Definition path_join (a b : string) : string :=
  if startswith b "/" then b
  else if negb (truthy a) || endswith a "/" then a +:+ b
  else a +:+ "/" +:+ b.

End Py.

(** ** [datetime] values and their renderings *)

Record datetime : Type := mk_datetime {
  year : Z; month : Z; day : Z;
  hour : Z; minute : Z; second : Z; microsecond : Z
}.

(** The ranges a [datetime] object can hold, with the year at four digits
    (the system clock's year; below 1000 the C library's ["%Y"] does not pad
    on every platform). *)
Definition wf_datetime (t : datetime) : Prop :=
  1000 <= year t <= 9999 /\ 1 <= month t <= 12 /\ 1 <= day t <= 31 /\
  0 <= hour t <= 23 /\ 0 <= minute t <= 59 /\ 0 <= second t <= 59 /\
  0 <= microsecond t <= 999999.

Definition digit (n : Z) : ascii := ascii_of_N (Z.to_N (48 + n mod 10)).

(** The lowest [w] decimal digits of [n], most significant first: the
    zero-padded fields ["%02d"], ["%04d"], ["%06d"]. *)
Fixpoint zpad (w : nat) (n : Z) : string :=
  match w with
  | O => EmptyString
  | S w' => String (digit (n / 10 ^ Z.of_nat w')) (zpad w' n)
  end.

(** [t.strftime("%Y%m%d%H%M%S%f")] *)
Definition strftime_YmdHMSf (t : datetime) : string :=
  zpad 4 (year t) +:+ zpad 2 (month t) +:+ zpad 2 (day t) +:+
  zpad 2 (hour t) +:+ zpad 2 (minute t) +:+ zpad 2 (second t) +:+
  zpad 6 (microsecond t).

(** [t.isoformat()] of a naive [datetime]: the fraction is printed only when
    the microsecond is not zero. *)
Definition isoformat (t : datetime) : string :=
  zpad 4 (year t) +:+ "-" +:+ zpad 2 (month t) +:+ "-" +:+ zpad 2 (day t) +:+
  "T" +:+ zpad 2 (hour t) +:+ ":" +:+ zpad 2 (minute t) +:+ ":" +:+
  zpad 2 (second t) +:+
  (if microsecond t =? 0 then "" else "." +:+ zpad 6 (microsecond t)).

(** ** Documents of the store *)

(** The values a document field holds: [None], a [str], the store's
    [ObjectId] (with its 24 hexadecimal digits), or any other object, kept
    with what [str()] prints for it. *)
Inductive Value : Type :=
| VNone
| VStr (s : string)
| VObjectId (hex : string)
| VOther (printed : string).

(** [str(v)] *)
Definition str (v : Value) : string :=
  match v with
  | VNone => "None"
  | VStr s => s
  | VObjectId hex => hex
  | VOther printed => printed
  end.

Definition of_optional (o : option string) : Value :=
  match o with Some s => VStr s | None => VNone end.

(** A [dict] with string keys. *)
Abbreviation Doc := (gmap string Value).

(** ** Exceptions and results of external calls *)

(** An exception of class [Exception], with its [str(e)]. *)
Inductive Exception : Type := Exc (message : string).

Definition message_of (e : Exception) : string :=
  match e with Exc m => m end.

Inductive result (A : Type) : Type :=
| Returns (a : A)
| Raises (e : Exception).
Arguments Returns {A} a.
Arguments Raises {A} e.

(** ** schemas.py *)

(** A member of a JSON request body as the schema sees it: not there,
    [null], or a value of the JSON type the schema names (a string, or a
    list of strings for [samples]). *)
Inductive field (A : Type) : Type :=
| Absent
| Null
| Given (a : A).
Arguments Absent {A}.
Arguments Null {A}.
Arguments Given {A} a.

Module Voice.
Record t : Type := mk {
  name : string;
  description : option string;
  language : string;
  avatar_url : option string;
  samples : option (list string)
}.

(** The JSON body posted for a [Voice]. *)
Record body : Type := mk_body {
  b_name : field string;
  b_description : field string;
  b_language : field string;
  b_avatar_url : field string;
  b_samples : field (list string)
}.
End Voice.

Module TTSJob.
Record t : Type := mk {
  text : string;
  voice_id : option string;
  language : string;
  format : string
}.

(** The JSON body posted for a [TTSJob]. *)
Record body : Type := mk_body {
  b_text : field string;
  b_voice_id : field string;
  b_language : field string;
  b_format : field string
}.
End TTSJob.

(** [class TTSResponse(BaseModel)] of main.py *)
Module TTSResponse.
Record t : Type := mk {
  id : string;
  text : string;
  voice_id : option string;
  language : string;
  format : string;
  status : string;
  audio_url : option string;
  created_at : option string
}.
End TTSResponse.

(** Validation of one member.  [required]: [Field(...)] on a [str];
    [defaulted d]: [Field(d)] on a [str]; [optional]: [Optional[str]] with
    default [None].  A failing member is reported by its name. *)
Definition required (name : string) (f : field string) : list string + string :=
  match f with
  | Given s => inr s
  | _ => inl [name]
  end.

Definition defaulted (name d : string) (f : field string) : list string + string :=
  match f with
  | Absent => inr d
  | Given s => inr s
  | Null => inl [name]
  end.

Definition optional {A} (f : field A) : option A :=
  match f with
  | Given a => Some a
  | _ => None
  end.

(** [min_length] and [max_length] count characters. *)
Definition length_between (name : string) (lo hi : nat) (r : list string + string)
  : list string + string :=
  match r with
  | inr s =>
      if ((lo <=? String.length s) && (String.length s <=? hi))%nat
      then inr s else inl [name]
  | inl e => inl e
  end.

Definition errors_of {A} (r : list string + A) : list string :=
  match r with inl e => e | inr _ => [] end.

Section Schemas.

(** The [HttpUrl] validator of pydantic: [None] for a string it refuses,
    and otherwise the [Url] it builds, as printed.  The [Url] is a normal
    form of the string, not the string as sent (a missing path becomes
    [/]). *)
Variable HttpUrl : string -> option string.

Definition optional_url (name : string) (f : field string)
  : list string + option string :=
  match f with
  | Given s =>
      match HttpUrl s with
      | Some url => inr (Some url)
      | None => inl [name]
      end
  | _ => inr None
  end.

(** Construction of a [Voice] from a body: all failing members are
    collected. *)
Definition validate_Voice (b : Voice.body) : list string + Voice.t :=
  let name := required "name" (Voice.b_name b) in
  let language := required "language" (Voice.b_language b) in
  let avatar_url := optional_url "avatar_url" (Voice.b_avatar_url b) in
  match name, language, avatar_url with
  | inr n, inr l, inr a =>
      inr {| Voice.name := n;
             Voice.description := optional (Voice.b_description b);
             Voice.language := l;
             Voice.avatar_url := a;
             Voice.samples :=
               match Voice.b_samples b with
               | Absent => Some []
               | Null => None
               | Given l => Some l
               end |}
  | _, _, _ => inl (errors_of name ++ errors_of language ++ errors_of avatar_url)%list
  end.

End Schemas.

(** Construction of a [TTSJob] from a body. *)
Definition validate_TTSJob (b : TTSJob.body) : list string + TTSJob.t :=
  let text := length_between "text" 1 2000 (required "text" (TTSJob.b_text b)) in
  let language := defaulted "language" "en" (TTSJob.b_language b) in
  let format := defaulted "format" "mp3" (TTSJob.b_format b) in
  match text, language, format with
  | inr t, inr l, inr f =>
      inr {| TTSJob.text := t;
             TTSJob.voice_id := optional (TTSJob.b_voice_id b);
             TTSJob.language := l;
             TTSJob.format := f |}
  | _, _, _ => inl (errors_of text ++ errors_of language ++ errors_of format)%list
  end.

(** ** External calls

    What a handler asks of its collaborators.  [DbHandle] reads the global
    [database.db] and answers whether it is not [None]; [GTTS] builds the
    engine object and [Save] is its [save] method, the only place where the
    service writes a file; [CreateDocument] and [GetDocuments] are the two
    functions of the persistence gateway. *)

(** The [data] argument of [create_document]: a model object or a [dict]. *)
Inductive Payload : Type :=
| Model (v : Voice.t)
| Dict (d : Doc).

Inductive Event : Type :=
| UtcNow
| DbHandle
| GTTS (text lang : string)
| Save (text lang fpath : string)
| CreateDocument (collection_name : string) (data : Payload)
| GetDocuments (collection_name : string) (limit : option Z).

Definition Answer (e : Event) : Type :=
  match e with
  | UtcNow => datetime
  | DbHandle => bool
  | GTTS _ _ => result unit
  | Save _ _ _ => result unit
  | CreateDocument _ _ => result string
  | GetDocuments _ _ => result (list Doc)
  end.

(** A call together with the answer it got. *)
Inductive Call : Type :=
| utcnow (t : datetime)
| db_handle (present : bool)
| gTTS (text lang : string) (r : result unit)
| save (text lang fpath : string) (r : result unit)
| create_document (collection_name : string) (data : Payload) (r : result string)
| get_documents (collection_name : string) (limit : option Z) (r : result (list Doc)).

Definition answered (e : Event) : Answer e -> Call :=
  match e with
  | UtcNow => utcnow
  | DbHandle => db_handle
  | GTTS text lang => gTTS text lang
  | Save text lang fpath => save text lang fpath
  | CreateDocument c d => create_document c d
  | GetDocuments c l => get_documents c l
  end.

Definition event_of (c : Call) : Event :=
  match c with
  | utcnow _ => UtcNow
  | db_handle _ => DbHandle
  | gTTS text lang _ => GTTS text lang
  | save text lang fpath _ => Save text lang fpath
  | create_document c d _ => CreateDocument c d
  | get_documents c l _ => GetDocuments c l
  end.

(** Programs over the external calls. *)
Inductive Prog (A : Type) : Type :=
| Ret (a : A)
| Vis (e : Event) (k : Answer e -> Prog A).
Arguments Ret {A} a.
Arguments Vis {A} e k.

Fixpoint bind {A B} (m : Prog A) (f : A -> Prog B) : Prog B :=
  match m with
  | Ret a => f a
  | Vis e k => Vis e (fun r => bind (k r) f)
  end.

Definition call (e : Event) : Prog (Answer e) := Vis e Ret.

#[global] Instance Prog_ret : MRet Prog := @Ret.
#[global] Instance Prog_bind : MBind Prog := fun A B f m => bind m f.

(** The environment: it answers a call knowing the calls made before it. *)
Definition Oracle : Type := list Event -> forall e : Event, Answer e.

(** Running a program: its value and the log of its calls, appended to the
    calls already made. *)
Fixpoint run {A} (o : Oracle) (p : Prog A) (past : list Call) : A * list Call :=
  match p with
  | Ret a => (a, past)
  | Vis e k =>
      let r := o (map event_of past) e in
      run o (k r) (past ++ [answered e r])
  end.

(** ** What the framework sends back *)

(** A handler returns a value, raises [HTTPException], or is not run at all
    because the body does not pass its schema. *)
Inductive Reply (A : Type) : Type :=
| Ok (a : A)
| HTTPException (status_code : Z) (detail : string)
| RequestValidationError (errors : list string).
Arguments Ok {A} a.
Arguments HTTPException {A} status_code detail.
Arguments RequestValidationError {A} errors.

(** The values the framework always renders once a handler has returned
    them: the [TTSResponse] that [synthesize_speech] builds itself
    ([response_model=TTSResponse]) and the id string of [create_voice]
    ([response_model=str]).  The documents of the two listings are not
    among them: they still go through [List[Voice]] or the JSON encoder,
    which can refuse them, so the status of a listing is not read off what
    its handler returned. *)
Class Rendered (A : Type) : Prop := always_rendered : True.

#[global] Instance TTSResponse_rendered : Rendered TTSResponse.t := I.
#[global] Instance id_rendered : Rendered string := I.

(** The status line of a route whose value is always rendered: 200 for a
    returned value; 422 is the framework's answer to a body that fails
    validation; main.py installs no exception handler of its own. *)
Definition status_code_of {A} `{Rendered A} (r : Reply A) : Z :=
  match r with
  | Ok _ => 200
  | HTTPException s _ => s
  | RequestValidationError _ => 422
  end.

Definition client_error (s : Z) : bool := (400 <=? s) && (s <=? 499).

(** ** main.py *)

Definition DEFAULT_VOICES : list Doc :=
  [ list_to_map
      [ ("name", VStr "Nova");
        ("description", VStr "Warm, clear American English voice");
        ("language", VStr "en");
        ("avatar_url", VStr "https://images.unsplash.com/photo-1544005313-94ddf0286df2?q=80&w=400&auto=format&fit=crop") ];
    list_to_map
      [ ("name", VStr "Aria");
        ("description", VStr "Natural British English voice");
        ("language", VStr "en-GB");
        ("avatar_url", VStr "https://images.unsplash.com/photo-1547425260-76bcadfb4f2c?q=80&w=400&auto=format&fit=crop") ];
    list_to_map
      [ ("name", VStr "Sora");
        ("description", VStr "Smooth Japanese voice");
        ("language", VStr "ja");
        ("avatar_url", VStr "https://images.unsplash.com/photo-1545996124-0501ebae84d0?q=80&w=400&auto=format&fit=crop") ];
    list_to_map
      [ ("name", VStr "Mateo");
        ("description", VStr "Crisp Spanish voice");
        ("language", VStr "es");
        ("avatar_url", VStr "https://images.unsplash.com/photo-1527980965255-d3b416303d12?q=80&w=400&auto=format&fit=crop") ] ].

(** [bool(l)] of a list. *)
Definition nonempty {A} (l : list A) : bool :=
  match l with [] => false | _ => true end.

(** [def list_voices()] *)
Definition list_voices : Prog (Reply (list Doc)) :=
  present ← call DbHandle;
  if (present : bool) then
    r ← call (GetDocuments "voice" None);
    match r with
    | Returns voices =>
        let voices := map (fun v : Doc => delete "_id" v) voices in
        if negb (nonempty voices) then mret (Ok DEFAULT_VOICES)
        else mret (Ok voices)
    | Raises _ => mret (Ok DEFAULT_VOICES)
    end
  else mret (Ok DEFAULT_VOICES).

(** [def create_voice(voice)] *)
Definition create_voice (voice : Voice.t) : Prog (Reply string) :=
  r ← call (CreateDocument "voice" (Model voice));
  match r with
  | Returns vid => mret (Ok vid)
  | Raises e => mret (HTTPException 500 (message_of e))
  end.

(** The body of the loop of [list_jobs]. *)
Definition serialize_id (j : Doc) : Doc :=
  match j !! "_id" with
  | Some oid => <["id" := VStr (str oid)]> (delete "_id" j)
  | None => j
  end.

(** [def list_jobs(limit)] *)
Definition list_jobs (limit : Z) : Prog (Reply (list Doc)) :=
  r ← call (GetDocuments "ttsjob" (Some limit));
  match r with
  | Returns jobs => mret (Ok (map serialize_id jobs))
  | Raises _ => mret (Ok [])
  end.

Section Service.

(** [os.getcwd()] when the module is loaded, and pydantic's [HttpUrl]. *)
Variable cwd : string.
Variable HttpUrl : string -> option string.

Definition OUTPUT_DIR : string := Py.path_join cwd "generated".

(** [def synthesize_speech(job)].  The import of [gtts] in its first line
    is taken to succeed. *)
Definition synthesize_speech (job : TTSJob.t) : Prog (Reply TTSResponse.t) :=
  let text := Py.strip (TTSJob.text job) in
  if negb (Py.truthy text) then mret (HTTPException 400 "Text is required")
  else
    now ← call UtcNow;
    let ts := strftime_YmdHMSf now in
    let ext :=
      if String.eqb (Py.lower (Py.or_ (TTSJob.format job) "mp3")) "mp3"
      then "mp3" else "mp3" in
    let fname := "tts_" +:+ ts +:+ "." +:+ ext in
    let fpath := Py.path_join OUTPUT_DIR fname in
    let lang := Py.or_ (TTSJob.language job) "en" in
    tts ← call (GTTS text lang);
    match tts with
    | Raises e => mret (HTTPException 500 ("TTS error: " +:+ message_of e))
    | Returns _ =>
        saved ← call (Save text lang fpath);
        match saved with
        | Raises e => mret (HTTPException 500 ("TTS error: " +:+ message_of e))
        | Returns _ =>
            let audio_url := "/generated/" +:+ fname in
            let doc : Doc :=
              list_to_map
                [ ("text", VStr text);
                  ("voice_id", of_optional (TTSJob.voice_id job));
                  ("language", VStr (Py.or_ (TTSJob.language job) "en"));
                  ("format", VStr (Py.or_ (TTSJob.format job) "mp3"));
                  ("status", VStr "completed");
                  ("audio_url", VStr audio_url) ] in
            created ← call (CreateDocument "ttsjob" (Dict doc));
            let job_id :=
              match created with
              | Returns i => i
              | Raises _ => ""
              end in
            now' ← call UtcNow;
            mret (Ok {| TTSResponse.id := job_id;
                        TTSResponse.text := text;
                        TTSResponse.voice_id := TTSJob.voice_id job;
                        TTSResponse.language := Py.or_ (TTSJob.language job) "en";
                        TTSResponse.format := Py.or_ (TTSJob.format job) "mp3";
                        TTSResponse.status := "completed";
                        TTSResponse.audio_url := Some audio_url;
                        TTSResponse.created_at := Some (isoformat now') |})
        end
    end.

(** [@app.get("/api/voices")]: what the handler returns, before the
    framework serialises it. *)
Definition GET_api_voices : Prog (Reply (list Doc)) := list_voices.

(** [@app.post("/api/voices")]: the body is validated as a [Voice]. *)
Definition POST_api_voices (b : Voice.body) : Prog (Reply string) :=
  match validate_Voice HttpUrl b with
  | inl errors => mret (RequestValidationError errors)
  | inr voice => create_voice voice
  end.

(** [@app.post("/api/tts")]: the body is validated as a [TTSJob]. *)
Definition POST_api_tts (b : TTSJob.body) : Prog (Reply TTSResponse.t) :=
  match validate_TTSJob b with
  | inl errors => mret (RequestValidationError errors)
  | inr job => synthesize_speech job
  end.

(** [@app.get("/api/jobs")]: [limit: int = 20].  What the handler returns;
    the records still go through the JSON encoder. *)
Definition GET_api_jobs (limit : option Z) : Prog (Reply (list Doc)) :=
  list_jobs (default 20 limit).

End Service.

(** ** Reading a log *)

Definition is_gTTS (c : Call) : bool :=
  match c with gTTS _ _ _ => true | _ => false end.

Definition is_save (c : Call) : bool :=
  match c with save _ _ _ _ => true | _ => false end.

Definition is_insert (c : Call) : bool :=
  match c with create_document _ _ _ => true | _ => false end.

(** The exception with which a call of the engine ended, if it raised. *)
Definition tts_failure (c : Call) : option Exception :=
  match c with
  | gTTS _ _ (Raises e) => Some e
  | save _ _ _ (Raises e) => Some e
  | _ => None
  end.

(** The audio file was written: [tts.save] returned. *)
Definition saved_ok (c : Call) : bool :=
  match c with save _ _ _ (Returns _) => true | _ => false end.

Definition insert_raised (c : Call) : bool :=
  match c with create_document _ _ (Raises _) => true | _ => false end.

(** The path given to [tts.save], and the document given to
    [create_document]. *)
Definition saved_path (c : Call) : option string :=
  match c with save _ _ fpath _ => Some fpath | _ => None end.

Definition inserted_dict (c : Call) : option (string * Doc) :=
  match c with create_document coll (Dict d) _ => Some (coll, d) | _ => None end.

(** The clock readings of a log, in order. *)
Definition reading (c : Call) : option datetime :=
  match c with utcnow t => Some t | _ => None end.

Definition with_id (i : string) (r : TTSResponse.t) : TTSResponse.t :=
  {| TTSResponse.id := i;
     TTSResponse.text := TTSResponse.text r;
     TTSResponse.voice_id := TTSResponse.voice_id r;
     TTSResponse.language := TTSResponse.language r;
     TTSResponse.format := TTSResponse.format r;
     TTSResponse.status := TTSResponse.status r;
     TTSResponse.audio_url := TTSResponse.audio_url r;
     TTSResponse.created_at := TTSResponse.created_at r |}.

(** Two environments that answer alike, but for [create_document]. *)
Definition same_but_insert (o o' : Oracle) : Prop :=
  forall past e,
    match e return Prop with
    | CreateDocument _ _ => True
    | e' => o past e' = o' past e'
    end.

(** An environment given by its answers; the clock is read by the number of
    calls made so far. *)
Definition scripted (clock : nat -> datetime) (db : bool) (tts saved : result unit)
    (inserted : result string) (found : result (list Doc)) : Oracle :=
  fun past e =>
    match e with
    | UtcNow => clock (List.length past)
    | DbHandle => db
    | GTTS _ _ => tts
    | Save _ _ _ => saved
    | CreateDocument _ _ => inserted
    | GetDocuments _ _ => found
    end.

#[global] Instance Value_eq_dec : EqDecision Value.
Proof. solve_decision. Defined.

(** The values stored under one key, document by document. *)
Definition column (k : string) (l : list Doc) : list (option Value) :=
  map (fun d : Doc => d !! k) l.

Definition missing {A} (f : field A) : bool :=
  match f with Given _ => false | _ => true end.

(** ** Sample requests and environments *)

Definition t_093807_123456 : datetime := mk_datetime 2026 11 4 9 38 7 123456.
Definition t_093807_123457 : datetime := mk_datetime 2026 11 4 9 38 7 123457.
Definition t_093808_000000 : datetime := mk_datetime 2026 11 4 9 38 8 0.

(** A clock that gives [t] to the first call of a request and [t'] later. *)
Definition clock (t t' : datetime) (n : nat) : datetime :=
  match n with O => t | _ => t' end.

Definition stored_job : Doc :=
  list_to_map [ ("_id", VObjectId "672890aa5f1c2d3e4f5a6b7c");
                ("text", VStr "Hello world");
                ("status", VStr "completed") ].

Definition stored_voice : Doc :=
  list_to_map [ ("_id", VObjectId "672890aa5f1c2d3e4f5a6b7d");
                ("name", VStr "Lina");
                ("language", VStr "de") ].

Definition env_ok : Oracle :=
  scripted (clock t_093807_123456 t_093808_000000) true (Returns tt) (Returns tt)
    (Returns "672890aa5f1c2d3e4f5a6b7c") (Returns [stored_job; stored_job]).

Definition env_ok_later : Oracle :=
  scripted (clock t_093807_123457 t_093808_000000) true (Returns tt) (Returns tt)
    (Returns "672890aa5f1c2d3e4f5a6b7e") (Returns [stored_voice]).

Definition env_same_instant : Oracle :=
  scripted (clock t_093807_123456 t_093808_000000) true (Returns tt) (Returns tt)
    (Returns "672890aa5f1c2d3e4f5a6b7e") (Returns [stored_voice]).

Definition env_insert_fails : Oracle :=
  scripted (clock t_093807_123456 t_093808_000000) true (Returns tt) (Returns tt)
    (Raises (Exc "write rejected")) (Returns [stored_job; stored_job]).

Definition env_tts_fails : Oracle :=
  scripted (clock t_093807_123456 t_093808_000000) true (Returns tt)
    (Raises (Exc "Failed to connect")) (Returns "672890aa5f1c2d3e4f5a6b7c")
    (Returns []).

Definition job_hello : TTSJob.t :=
  {| TTSJob.text := "Hello world"; TTSJob.voice_id := None;
     TTSJob.language := "en"; TTSJob.format := "mp3" |}.

(** [{"text": "Hello world", "language": "en"}] *)
Definition body_hello : TTSJob.body :=
  {| TTSJob.b_text := Given "Hello world"; TTSJob.b_voice_id := Absent;
     TTSJob.b_language := Given "en"; TTSJob.b_format := Absent |}.

(** [{"text": " Hello world ", "format": "wav"}] *)
Definition body_wav : TTSJob.body :=
  {| TTSJob.b_text := Given " Hello world "; TTSJob.b_voice_id := Absent;
     TTSJob.b_language := Absent; TTSJob.b_format := Given "wav" |}.

(** A body whose [format] member is the empty string. *)
Definition body_empty_format : TTSJob.body :=
  {| TTSJob.b_text := Given "Hello world"; TTSJob.b_voice_id := Absent;
     TTSJob.b_language := Absent; TTSJob.b_format := Given "" |}.

(** A body whose [text] member is the empty string, and one of three
    blanks. *)
Definition body_empty_text : TTSJob.body :=
  {| TTSJob.b_text := Given ""; TTSJob.b_voice_id := Absent;
     TTSJob.b_language := Absent; TTSJob.b_format := Absent |}.

Definition body_blank_text : TTSJob.body :=
  {| TTSJob.b_text := Given "   "; TTSJob.b_voice_id := Absent;
     TTSJob.b_language := Absent; TTSJob.b_format := Absent |}.

(** A voice body with an empty [name], and one without [name]. *)
Definition voice_empty_name : Voice.body :=
  {| Voice.b_name := Given ""; Voice.b_description := Absent;
     Voice.b_language := Given "en"; Voice.b_avatar_url := Absent;
     Voice.b_samples := Absent |}.

Definition voice_no_name : Voice.body :=
  {| Voice.b_name := Absent; Voice.b_description := Given "Nameless";
     Voice.b_language := Given "en"; Voice.b_avatar_url := Absent;
     Voice.b_samples := Absent |}.

(** A voice body with an avatar whose URL has no path. *)
Definition voice_with_avatar : Voice.body :=
  {| Voice.b_name := Given "Lina"; Voice.b_description := Absent;
     Voice.b_language := Given "de";
     Voice.b_avatar_url := Given "https://example.com";
     Voice.b_samples := Absent |}.

(** A validator that accepts every string and adds the path [/] to it. *)
Definition any_url (s : string) : option string := Some (s +:+ "/").

(** ** Symbolic execution of a handler

    [exec] unfolds [run] up to the answers of the environment, [answer]
    splits on the answer to the next call, [observe] evaluates what was
    read off the log, and [agree] carries an answer over to a second environment. *)
Ltac exec :=
  cbn [run bind mbind mret Prog_bind Prog_ret call map app answered event_of
       negb fst snd].

Ltac answer_at o h e H :=
  lazymatch type of o with Oracle => destruct (o h e) eqn:H end.

Ltac answer H :=
  match goal with
  | |- context [?o ?h DbHandle] => answer_at o h DbHandle H
  | |- context [?o ?h (GTTS ?a ?b)] => answer_at o h (GTTS a b) H
  | |- context [?o ?h (Save ?a ?b ?c)] => answer_at o h (Save a b c) H
  | |- context [?o ?h (CreateDocument ?a ?b)] =>
      answer_at o h (CreateDocument a b) H
  | |- context [?o ?h (GetDocuments ?a ?b)] =>
      answer_at o h (GetDocuments a b) H
  end.

Ltac observe :=
  cbn [existsb orb omap list_omap List.filter List.length head fst snd].

Ltac agree Hsame o' :=
  match goal with
  | |- context [o' ?h ?e] =>
      let X := fresh in
      pose proof (Hsame h e) as X; cbn beta iota in X; rewrite <- X; clear X
  end.

(** ** The diagnostics route

    [test_database] fills a [dict] step by step under two nested
    [try]/[except]; its strings carry marks outside Latin-1, so they are
    held here as sequences of code points.  It reads the global
    [database.db] and the process environment. *)

Module Diagnostics.

Abbreviation ustr := (list N).

(** A Latin-1 string as code points. *)
Definition U (s : string) : ustr := map N_of_ascii (list_ascii_of_string s).

(** The marks: U+2705, U+274C, and U+26A0 followed by U+FE0F. *)
Definition CHECK : ustr := [9989%N].
Definition CROSS : ustr := [10060%N].
Definition WARN : ustr := [9888%N; 65039%N].

(** The values of the response. *)
Inductive DValue : Type :=
| DNone
| DStr (s : ustr)
| DList (l : list ustr).

Abbreviation Response := (gmap string DValue).

(** What looking up an attribute of an object does. *)
Inductive attribute (A : Type) : Type :=
| NoAttribute
| Attribute (a : A)
| AttributeFails (e : Exception).
Arguments NoAttribute {A}.
Arguments Attribute {A} a.
Arguments AttributeFails {A} e.

(** The database object, by what the route observes of it. *)
Record Database : Type := mk_Database {
  name : attribute DValue;
  list_collection_names : result (list ustr)
}.

Record Env : Type := mk_Env {
  db : option Database;
  getenv : string -> option string
}.

(** [hasattr(d, 'name')] and [d.name] *)
Definition hasattr_name (d : Database) : result bool :=
  match name d with
  | NoAttribute => Returns false
  | Attribute _ => Returns true
  | AttributeFails e => Raises e
  end.

Definition getattr_name (d : Database) : result DValue :=
  match name d with
  | Attribute v => Returns v
  | AttributeFails e => Raises e
  | NoAttribute => Raises (Exc "object has no attribute 'name'")
  end.

(** Statements over the response: the dictionary outlives a raise. *)
Definition St (A : Type) : Type := Response -> result A * Response.

Definition st_ret {A} (a : A) : St A := fun s => (Returns a, s).

Definition st_bind {A B} (m : St A) (f : A -> St B) : St B :=
  fun s =>
    match m s with
    | (Returns a, s') => f a s'
    | (Raises e, s') => (Raises e, s')
    end.

Definition external {A} (r : result A) : St A := fun s => (r, s).

(** [response[k] = v] *)
Definition assign (k : string) (v : DValue) : St unit :=
  fun s => (Returns tt, <[k := v]> s).

(** [try: m except Exception as e: h e] *)
Definition try_except (m : St unit) (h : Exception -> St unit) : St unit :=
  fun s =>
    match m s with
    | (Returns u, s') => (Returns u, s')
    | (Raises e, s') => h e s'
    end.

#[global] Instance St_ret : MRet St := @st_ret.
#[global] Instance St_bind : MBind St := fun A B f m => st_bind m f.

(** [bool(os.getenv(k))] *)
Definition is_set (env : Env) (k : string) : bool :=
  match getenv env k with
  | Some v => Py.truthy v
  | None => false
  end.

Definition set_or_not (env : Env) (k : string) : DValue :=
  DStr (if is_set env k then CHECK ++ U " Set" else CROSS ++ U " Not Set")%list.

(** [str(e)[:50]] *)
Definition str50 (e : Exception) : ustr := take 50 (U (message_of e)).

(** [def test_database()] *)
Definition test_database (env : Env) : Response :=
  let response : Response :=
    list_to_map
      [ ("backend", DStr (CHECK ++ U " Running")%list);
        ("database", DStr (CROSS ++ U " Not Available")%list);
        ("database_url", DNone);
        ("database_name", DNone);
        ("connection_status", DStr (U "Not Connected"));
        ("collections", DList []) ] in
  let body : St unit :=
    try_except
      (match db env with
       | Some d =>
           _ ← assign "database" (DStr (CHECK ++ U " Available")%list);
           _ ← assign "database_url" (set_or_not env "DATABASE_URL");
           has ← external (hasattr_name d);
           n ← (if (has : bool) then external (getattr_name d)
                else mret (DStr (CHECK ++ U " Connected")%list));
           _ ← assign "database_name" n;
           _ ← assign "connection_status" (DStr (U "Connected"));
           try_except
             (collections ← external (list_collection_names d);
              _ ← assign "collections" (DList (take 10 collections));
              assign "database" (DStr (CHECK ++ U " Connected & Working")%list))
             (fun e =>
                assign "database"
                  (DStr (WARN ++ U "  Connected but Error: " ++ str50 e)%list))
       | None =>
           assign "database"
             (DStr (WARN ++ U "  Available but not initialized")%list)
       end)
      (fun e => assign "database" (DStr (CROSS ++ U " Error: " ++ str50 e)%list)) in
  let response := (body response).2 in
  let response := <["database_url" := set_or_not env "DATABASE_URL"]> response in
  let response := <["database_name" := set_or_not env "DATABASE_NAME"]> response in
  response.

End Diagnostics.


(** ** More readers of strings and logs *)

Definition first_char (s : string) : option ascii :=
  match s with
  | EmptyString => None
  | String c _ => Some c
  end.

Fixpoint last_char (s : string) : option ascii :=
  match s with
  | EmptyString => None
  | String c EmptyString => Some c
  | String _ s' => last_char s'
  end.

Fixpoint all_chars (p : ascii -> bool) (s : string) : bool :=
  match s with
  | EmptyString => true
  | String c s' => p c && all_chars p s'
  end.

(** The characters [0] to [9]. *)
Definition is_digit (c : ascii) : bool :=
  (48 <=? Py.code c) && (Py.code c <=? 57).

Definition is_separator (c : ascii) : bool := Py.code c =? 47.

(** The text and the language a call hands to the engine. *)
Definition engine_input (c : Call) : option (string * string) :=
  match c with
  | gTTS text lang _ => Some (text, lang)
  | save text lang _ _ => Some (text, lang)
  | _ => None
  end.

(** The calls that only read the store. *)
Definition is_read (c : Call) : bool :=
  match c with
  | db_handle _ => true
  | get_documents _ _ _ => true
  | _ => false
  end.

Definition is_clock (c : Call) : bool :=
  match c with utcnow _ => true | _ => false end.

(** The keys of the job document. *)
Definition job_keys : gset string :=
  {[ "text"; "voice_id"; "language"; "format"; "status"; "audio_url" ]}.

(** ** More sample environments *)

Definition twelve_names : list (list N) :=
  map Diagnostics.U ["a"; "b"; "c"; "d"; "e"; "f"; "g"; "h"; "i"; "j"; "k"; "l"].

Definition db_voices : Diagnostics.Database :=
  Diagnostics.mk_Database
    (Diagnostics.Attribute (Diagnostics.DStr (Diagnostics.U "voices")))
    (Returns twelve_names).

Definition db_broken : Diagnostics.Database :=
  Diagnostics.mk_Database
    (Diagnostics.Attribute (Diagnostics.DStr (Diagnostics.U "voices")))
    (Raises (Exc "ServerSelectionTimeoutError: localhost:27017: [Errno 111] Connection refused")).

Definition environ_url_only (k : string) : option string :=
  if String.eqb k "DATABASE_URL" then Some "mongodb://localhost:27017" else None.

Definition diag_ok : Diagnostics.Env := Diagnostics.mk_Env (Some db_voices) environ_url_only.
Definition diag_broken : Diagnostics.Env := Diagnostics.mk_Env (Some db_broken) environ_url_only.

(** The document [synthesize_speech] hands over for [job_hello] at
    09:38:07.123456, and what a store that adds its [_id] gives back. *)
Definition hello_document : Doc :=
  list_to_map
    [ ("text", VStr "Hello world"); ("voice_id", VNone);
      ("language", VStr "en"); ("format", VStr "mp3");
      ("status", VStr "completed");
      ("audio_url", VStr "/generated/tts_20261104093807123456.mp3") ].

Definition env_listing_hello : Oracle :=
  scripted (clock t_093807_123456 t_093808_000000) true (Returns tt) (Returns tt)
    (Returns "672890aa5f1c2d3e4f5a6b7c")
    (Returns [<["_id" := VObjectId "672890aa5f1c2d3e4f5a6b7c"]> hello_document]).

(** ** The persistence gateway *)

Module Gateway.






End Gateway.


(** ** The model on sample inputs *)

Example strip_trims_both_ends : Py.strip "  Hello world " = "Hello world".
Proof. reflexivity. Qed.

Example strip_of_blanks :
  Py.strip (String (ascii_of_nat 9) (String (ascii_of_nat 10) " ")) = "".
Proof. reflexivity. Qed.

Example lower_wav : Py.lower "WaV" = "wav".
Proof. reflexivity. Qed.

Example path_join_output_dir : OUTPUT_DIR "/srv/app" = "/srv/app/generated".
Proof. reflexivity. Qed.

Example path_join_absolute : Py.path_join "/srv/app" "/tmp/x" = "/tmp/x".
Proof. reflexivity. Qed.

Example strftime_sample : strftime_YmdHMSf t_093807_123456 = "20261104093807123456".
Proof. reflexivity. Qed.

Example isoformat_sample : isoformat t_093807_123456 = "2026-11-04T09:38:07.123456".
Proof. reflexivity. Qed.

Example isoformat_whole_second : isoformat t_093808_000000 = "2026-11-04T09:38:08".
Proof. reflexivity. Qed.

Example validate_hello : validate_TTSJob body_hello = inr job_hello.
Proof. reflexivity. Qed.

Example validate_empty_text : validate_TTSJob body_empty_text = inl ["text"].
Proof. reflexivity. Qed.

Example synthesize_calls :
  map event_of (run env_tts_fails (synthesize_speech "/srv/app" job_hello) []).2
  = [UtcNow; GTTS "Hello world" "en";
     Save "Hello world" "en" "/srv/app/generated/tts_20261104093807123456.mp3"].
Proof. reflexivity. Qed.

Example list_voices_without_db :
  run (scripted (clock t_093807_123456 t_093808_000000) false (Returns tt)
         (Returns tt) (Returns "") (Returns [stored_voice])) list_voices []
  = (Ok DEFAULT_VOICES, [db_handle false]).
Proof. reflexivity. Qed.

Example list_voices_stored :
  (run env_ok_later list_voices []).1 = Ok [delete "_id" stored_voice].
Proof. reflexivity. Qed.

(** ** Strings *)

Lemma append_nil (b : string) : "" +:+ b = b.
Proof. reflexivity. Qed.

Lemma append_cons (c : ascii) (a b : string) :
  String c a +:+ b = String c (a +:+ b).
Proof. reflexivity. Qed.

Lemma length_append (a b : string) :
  String.length (a +:+ b) = (String.length a + String.length b)%nat.
Proof.
  induction a as [|c a IH]; [reflexivity|].
  rewrite append_cons. cbn [String.length]. now rewrite IH.
Qed.

Lemma append_cancel_l (a b1 b2 : string) : a +:+ b1 = a +:+ b2 -> b1 = b2.
Proof. apply (inj (String.app a)). Qed.

Lemma append_inj (a1 a2 b1 b2 : string) :
  String.length a1 = String.length a2 ->
  a1 +:+ b1 = a2 +:+ b2 -> a1 = a2 /\ b1 = b2.
Proof.
  revert a2. induction a1 as [|c a1 IH]; intros [|c2 a2] Hlen H;
    try discriminate Hlen.
  - now split.
  - rewrite !append_cons in H. injection H as Hc H. injection Hlen as Hlen.
    destruct (IH _ Hlen H) as [-> ->]. now subst.
Qed.

Lemma substring_all (p : string) : substring 0 (String.length p) p = p.
Proof.
  induction p as [|c p IH]; [reflexivity|].
  cbn [String.length substring]. now rewrite IH.
Qed.

Lemma substring_append (s p : string) :
  substring (String.length s) (String.length p) (s +:+ p) = p.
Proof.
  induction s as [|c s IH]; [apply substring_all|].
  rewrite append_cons. cbn [String.length substring]. exact IH.
Qed.

Lemma endswith_append (s p : string) : Py.endswith (s +:+ p) p = true.
Proof.
  unfold Py.endswith. rewrite length_append.
  replace (String.length s + String.length p - String.length p)%nat
    with (String.length s) by lia.
  rewrite substring_append, String.eqb_refl, andb_true_r.
  apply Nat.leb_le. lia.
Qed.

Lemma append_assoc (a b c : string) : (a +:+ b) +:+ c = a +:+ (b +:+ c).
Proof.
  induction a as [|x a IH]; [reflexivity|].
  rewrite !append_cons. now rewrite IH.
Qed.

(** Stripping leaves nothing exactly when every character is whitespace. *)
Lemma lstrip_blank (s : string) : Py.blank s = true -> Py.lstrip s = "".
Proof.
  induction s as [|c s IH]; cbn; [reflexivity|].
  destruct (Py.isspace c); cbn; [exact IH | discriminate].
Qed.

Lemma lstrip_not_blank (s : string) :
  Py.blank s = false ->
  exists c r, Py.lstrip s = String c r /\ Py.isspace c = false.
Proof.
  induction s as [|c s IH]; cbn; [discriminate|].
  destruct (Py.isspace c) eqn:Hc; cbn; [exact IH|].
  intros _. now exists c, s.
Qed.

Lemma rstrip_head (c : ascii) (r : string) :
  Py.isspace c = false -> Py.truthy (Py.rstrip (String c r)) = true.
Proof.
  intros Hc. cbn. destruct (Py.rstrip r); [now rewrite Hc | reflexivity].
Qed.

Lemma truthy_strip (s : string) : Py.truthy (Py.strip s) = negb (Py.blank s).
Proof.
  unfold Py.strip. destruct (Py.blank s) eqn:Hb.
  - now rewrite lstrip_blank.
  - destruct (lstrip_not_blank s Hb) as (c & r & -> & Hc).
    now rewrite rstrip_head.
Qed.

(** ** Decimal fields *)

Lemma digit_inj (a b : Z) : digit a = digit b -> a mod 10 = b mod 10.
Proof.
  unfold digit. intros H.
  assert (Ha : 0 <= a mod 10 < 10) by (apply Z.mod_pos_bound; lia).
  assert (Hb : 0 <= b mod 10 < 10) by (apply Z.mod_pos_bound; lia).
  apply (f_equal N_of_ascii) in H.
  rewrite !N_ascii_embedding in H by lia.
  apply Z2N.inj in H; lia.
Qed.

Lemma zpad_length (w : nat) (n : Z) : String.length (zpad w n) = w.
Proof. induction w as [|w IH]; simpl; [reflexivity | now f_equal]. Qed.

Lemma zpad_inj_mod (w : nat) (n m : Z) :
  zpad w n = zpad w m -> n mod 10 ^ Z.of_nat w = m mod 10 ^ Z.of_nat w.
Proof.
  induction w as [|w IH]; intros H.
  - cbn. now rewrite !Z.mod_1_r.
  - cbn [zpad] in H. injection H as Hd Ht.
    apply digit_inj in Hd. apply IH in Ht.
    rewrite Nat2Z.inj_succ, Z.pow_succ_r by lia.
    rewrite (Z.mul_comm 10).
    rewrite !Z.rem_mul_r by lia. congruence.
Qed.

Lemma zpad_inj (w : nat) (n m : Z) :
  0 <= n < 10 ^ Z.of_nat w -> 0 <= m < 10 ^ Z.of_nat w ->
  zpad w n = zpad w m -> n = m.
Proof.
  intros Hn Hm H. apply zpad_inj_mod in H.
  now rewrite !Z.mod_small in H.
Qed.

Lemma ext_mp3 (b : bool) : (if b then "mp3" else "mp3") = "mp3".
Proof. now destruct b. Qed.

Lemma strftime_length (t : datetime) :
  String.length (strftime_YmdHMSf t) = 20%nat.
Proof. unfold strftime_YmdHMSf. now rewrite !length_append, !zpad_length. Qed.

(** Well-formed readings are told apart by their rendering: every field has
    a fixed width. *)
Lemma strftime_inj (t1 t2 : datetime) :
  wf_datetime t1 -> wf_datetime t2 ->
  strftime_YmdHMSf t1 = strftime_YmdHMSf t2 -> t1 = t2.
Proof.
  intros W1 W2 H. unfold strftime_YmdHMSf in H.
  repeat (apply append_inj in H as [? H]; [| now rewrite !zpad_length]).
  destruct t1, t2; unfold wf_datetime in *;
    cbn [year month day hour minute second microsecond] in *.
  f_equal; (eapply zpad_inj; [| | eassumption]); cbn; lia.
Qed.

(** A relative name is appended to the directory, after a separator that
    the directory alone decides. *)
Lemma path_join_relative (a : string) :
  exists dir, forall b,
    Py.startswith b "/" = false -> Py.path_join a b = dir +:+ b.
Proof.
  unfold Py.path_join.
  destruct (negb (Py.truthy a) || Py.endswith a "/") eqn:Hsep.
  - exists a. intros b ->. reflexivity.
  - exists (a +:+ "/"). intros b ->. now rewrite append_assoc.
Qed.

Lemma tts_name_relative (ts : string) :
  Py.startswith ("tts_" +:+ ts +:+ ".mp3") "/" = false.
Proof. reflexivity. Qed.

Lemma endswith_path_join (a stem : string) :
  Py.endswith (Py.path_join a ("tts_" +:+ stem +:+ ".mp3")) ".mp3" = true.
Proof.
  destruct (path_join_relative a) as [dir Hdir].
  rewrite Hdir by apply tts_name_relative.
  rewrite <- !append_assoc. apply endswith_append.
Qed.

Lemma tts_name_inj (t1 t2 : datetime) :
  wf_datetime t1 -> wf_datetime t2 ->
  "tts_" +:+ strftime_YmdHMSf t1 +:+ ".mp3"
  = "tts_" +:+ strftime_YmdHMSf t2 +:+ ".mp3" ->
  t1 = t2.
Proof.
  intros W1 W2 H. apply append_cancel_l in H.
  apply append_inj in H as [H _]; [| now rewrite !strftime_length].
  now apply strftime_inj.
Qed.

(** ** Schema validation *)

Lemma validate_TTSJob_accepted (b : TTSJob.body) (job : TTSJob.t) :
  validate_TTSJob b = inr job ->
  TTSJob.b_text b = Given (TTSJob.text job) /\
  (1 <= String.length (TTSJob.text job) <= 2000)%nat /\
  TTSJob.voice_id job = optional (TTSJob.b_voice_id b) /\
  defaulted "language" "en" (TTSJob.b_language b) = inr (TTSJob.language job) /\
  defaulted "format" "mp3" (TTSJob.b_format b) = inr (TTSJob.format job).
Proof.
  unfold validate_TTSJob, length_between, required.
  destruct (TTSJob.b_text b) as [| |s]; try discriminate.
  destruct (Nat.leb 1 (String.length s) && Nat.leb (String.length s) 2000)
    eqn:Hlen; try discriminate.
  destruct (defaulted "language" "en" _) as [|l]; try discriminate.
  destruct (defaulted "format" "mp3" _) as [|f]; try discriminate.
  intros [= <-]. cbn.
  apply andb_true_iff in Hlen as [H1 H2].
  apply Nat.leb_le in H1, H2. auto.
Qed.

Lemma validate_TTSJob_accepts (b : TTSJob.body) (s : string) :
  TTSJob.b_text b = Given s ->
  (1 <= String.length s <= 2000)%nat ->
  TTSJob.b_language b <> Null -> TTSJob.b_format b <> Null ->
  exists job, validate_TTSJob b = inr job /\ TTSJob.text job = s.
Proof.
  intros Ht [H1 H2] Hl Hf. unfold validate_TTSJob, length_between, required.
  rewrite Ht.
  apply Nat.leb_le in H1, H2. rewrite H1, H2. cbn [andb].
  destruct (TTSJob.b_language b); try congruence;
    destruct (TTSJob.b_format b); try congruence;
    cbn; eexists; split; reflexivity.
Qed.

Lemma validate_TTSJob_empty_text (b : TTSJob.body) :
  TTSJob.b_text b = Given "" -> exists errors, validate_TTSJob b = inl errors.
Proof.
  intros Ht. destruct (validate_TTSJob b) as [errors|job] eqn:Hv; [eauto|].
  apply validate_TTSJob_accepted in Hv as (Ht' & [Hlen _] & _).
  rewrite Ht in Ht'. injection Ht' as Ht'. rewrite <- Ht' in Hlen.
  cbn in Hlen. lia.
Qed.

(** ** The handlers *)

(** A text of blanks only stops the handler at its first test, before any
    call. *)
Lemma synthesize_speech_blank (cwd : string) (o : Oracle) (job : TTSJob.t)
    (past : list Call) :
  Py.blank (TTSJob.text job) = true ->
  run o (synthesize_speech cwd job) past
  = (HTTPException 400 "Text is required", past).
Proof.
  intros Hb. unfold synthesize_speech.
  rewrite truthy_strip, Hb. reflexivity.
Qed.

(** C1: when the engine has produced the audio file and the insert of the
    job record raises, the request still succeeds (status 200); the job id of
    the response is the empty string, its [audio_url] names the file that
    was saved, and the response is, field by field, the one any environment
    that differs only in the answer to the insert gets, but for the id. *)
Theorem insert_failure_is_swallowed (cwd : string) (o : Oracle) (job : TTSJob.t) :
  let out := run o (synthesize_speech cwd job) [] in
  existsb saved_ok out.2 = true ->
  existsb insert_raised out.2 = true ->
  exists r fname,
    out.1 = Ok r /\ status_code_of out.1 = 200 /\
    TTSResponse.id r = "" /\
    TTSResponse.audio_url r = Some ("/generated/" +:+ fname) /\
    omap saved_path out.2 = [Py.path_join (OUTPUT_DIR cwd) fname] /\
    forall o', same_but_insert o o' ->
      exists r', (run o' (synthesize_speech cwd job) []).1 = Ok r' /\
                 r = with_id "" r'.
Proof.
  intros out. subst out.
  unfold synthesize_speech, saved_ok, insert_raised, saved_path.
  destruct (Py.truthy _) eqn:Htext; exec; observe; [| intros; discriminate].
  rewrite !ext_mp3.
  answer Htts; exec; observe; [| intros; discriminate].
  answer Hsave; exec; observe; [| intros; discriminate].
  answer Hins; exec; observe; [intros; discriminate |].
  intros _ _. eexists _, _. repeat split.
  intros o' Hsame.
  agree Hsame o'. exec. rewrite ?ext_mp3.
  agree Hsame o'. rewrite Htts. exec.
  agree Hsame o'. rewrite Hsave. exec.
  agree Hsame o'.
  eexists. split; reflexivity.
Qed.

(** A store that rejects the write, against the same store accepting it. *)
Lemma insert_failure_is_swallowed_witness :
  existsb saved_ok (run env_insert_fails (synthesize_speech "/srv/app" job_hello) []).2 = true /\
  existsb insert_raised (run env_insert_fails (synthesize_speech "/srv/app" job_hello) []).2 = true /\
  exists r,
    (run env_insert_fails (synthesize_speech "/srv/app" job_hello) []).1 = Ok r /\
    TTSResponse.id r = "" /\
    (run env_ok (synthesize_speech "/srv/app" job_hello) []).1
    = Ok (with_id "672890aa5f1c2d3e4f5a6b7c" r).
Proof.
  split; [reflexivity|]. split; [reflexivity|].
  destruct (insert_failure_is_swallowed "/srv/app" env_insert_fails job_hello
              eq_refl eq_refl) as (r & fname & Hr & _ & Hid & _ & _ & Hsame).
  exists r. split; [exact Hr|]. split; [exact Hid|].
  destruct (Hsame env_ok) as (r' & Hr' & ->).
  - intros past e. destruct e; reflexivity.
  - rewrite Hr'. f_equal. vm_compute in Hr'. injection Hr' as <-. reflexivity.
Defined.

(** C2: when the engine raises, at its construction or in [save], the
    request fails with status 500 and the exception's message in the
    detail; the engine was built once and asked to save at most once (no
    second attempt), and [create_document] was not called. *)
Theorem tts_failure_fails_request (cwd : string) (o : Oracle) (job : TTSJob.t)
    (e : Exception) :
  let out := run o (synthesize_speech cwd job) [] in
  In e (omap tts_failure out.2) ->
  out.1 = HTTPException 500 ("TTS error: " +:+ message_of e) /\
  status_code_of out.1 = 500 /\
  List.length (List.filter is_gTTS out.2) = 1%nat /\
  (List.length (List.filter is_save out.2) <= 1)%nat /\
  List.filter is_insert out.2 = [].
Proof.
  intros out. subst out.
  unfold synthesize_speech, tts_failure, is_gTTS, is_save, is_insert.
  destruct (Py.truthy _); exec; observe; [| intros []].
  answer Htts; exec; observe.
  - answer Hsave; exec; observe.
    + intros [].
    + intros [<- | []]. repeat split; auto.
  - intros [<- | []]. repeat split; auto.
Qed.

(** An engine that cannot connect when asked to save. *)
Lemma tts_failure_fails_request_witness :
  In (Exc "Failed to connect")
     (omap tts_failure (run env_tts_fails (synthesize_speech "/srv/app" job_hello) []).2) /\
  (run env_tts_fails (synthesize_speech "/srv/app" job_hello) []).1
  = HTTPException 500 "TTS error: Failed to connect".
Proof.
  assert (H : In (Exc "Failed to connect")
                (omap tts_failure
                   (run env_tts_fails (synthesize_speech "/srv/app" job_hello) []).2))
    by (left; reflexivity).
  split; [exact H|].
  exact (proj1 (tts_failure_fails_request "/srv/app" env_tts_fails job_hello _ H)).
Defined.

(** C3, as the code has it: a request whose text is empty or made of
    whitespace only is refused with a client error and without any external
    call (no engine call, no file, no insert).  The refusal is the
    framework's 422 when the body fails the schema, which the empty text
    always does, and the handler's 400 when the body passes it. *)
Theorem blank_text_is_refused (cwd : string) (o : Oracle) (b : TTSJob.body)
    (s : string) :
  TTSJob.b_text b = Given s -> Py.blank s = true ->
  let out := run o (POST_api_tts cwd b) [] in
  out.2 = [] /\
  client_error (status_code_of out.1) = true /\
  out.1 = match validate_TTSJob b with
          | inl errors => RequestValidationError errors
          | inr _ => HTTPException 400 "Text is required"
          end /\
  (s = "" -> status_code_of out.1 = 422) /\
  ((1 <= String.length s <= 2000)%nat ->
   TTSJob.b_language b <> Null -> TTSJob.b_format b <> Null ->
   out.1 = HTTPException 400 "Text is required").
Proof.
  intros Ht Hb out. subst out. unfold POST_api_tts.
  destruct (validate_TTSJob b) as [errors|job] eqn:Hv.
  - exec. repeat split; try reflexivity.
    intros Hlen Hl Hf.
    destruct (validate_TTSJob_accepts b s Ht Hlen Hl Hf) as (job & Hj & _).
    congruence.
  - pose proof (validate_TTSJob_accepted b job Hv) as (Ht' & Hlen & _).
    rewrite Ht in Ht'. injection Ht' as Ht'.
    rewrite synthesize_speech_blank by (now rewrite <- Ht').
    repeat split; try reflexivity.
    intros ->. rewrite <- Ht' in Hlen. cbn in Hlen. lia.
Qed.

(** Three blanks pass the schema and are refused by the handler. *)
Lemma blank_text_is_refused_witness :
  (run env_ok (POST_api_tts "/srv/app" body_blank_text) [])
  = (HTTPException 400 "Text is required", []).
Proof.
  pose proof (blank_text_is_refused "/srv/app" env_ok body_blank_text "   "
                eq_refl eq_refl) as (Hlog & _ & Hout & _).
  rewrite (surjective_pairing (run _ _ _)). rewrite Hlog, Hout. reflexivity.
Defined.

(** C3, as the claim has it, fails: the empty text is refused by the schema
    ([min_length=1]) with status 422, not 400. *)
Lemma empty_text_is_422_not_400 :
  TTSJob.b_text body_empty_text = Given "" /\ Py.blank "" = true /\
  status_code_of (run env_ok (POST_api_tts "/srv/app" body_empty_text) []).1 = 422 /\
  status_code_of (run env_ok (POST_api_tts "/srv/app" body_empty_text) []).1 <> 400.
Proof. repeat split; try reflexivity. vm_compute. discriminate. Qed.

(** C5: whatever the [format] member of the body (absent or any string),
    every path given to [tts.save] and every [audio_url] returned ends in
    [.mp3]; a returned [audio_url] names the one file that was saved.  The
    format is coerced, not refused: a body that passes the schema with a
    text that is not blank goes to the engine whatever its format, and
    unless the engine raises it is answered with status 200 and an
    [audio_url] in [.mp3], for the file saved under that name. *)
Theorem audio_is_always_mp3 (cwd : string) (o : Oracle) (b : TTSJob.body) :
  let out := run o (POST_api_tts cwd b) [] in
  Forall (fun fpath => Py.endswith fpath ".mp3" = true) (omap saved_path out.2) /\
  match out.1 with
  | Ok r =>
      exists stem,
        TTSResponse.audio_url r = Some ("/generated/" +:+ "tts_" +:+ stem +:+ ".mp3") /\
        Py.endswith ("/generated/" +:+ "tts_" +:+ stem +:+ ".mp3") ".mp3" = true /\
        omap saved_path out.2
        = [Py.path_join (OUTPUT_DIR cwd) ("tts_" +:+ stem +:+ ".mp3")]
  | _ => omap saved_path out.2 = [] \/ exists e, In e (omap tts_failure out.2)
  end /\
  forall job,
    validate_TTSJob b = inr job -> Py.blank (TTSJob.text job) = false ->
    List.length (List.filter is_gTTS out.2) = 1%nat /\
    (status_code_of out.1 = 200 \/ status_code_of out.1 = 500) /\
    (omap tts_failure out.2 = [] ->
     exists r,
       out.1 = Ok r /\ status_code_of out.1 = 200 /\
       TTSResponse.audio_url r
       = Some ("/generated/tts_" +:+ strftime_YmdHMSf (o [] UtcNow) +:+ ".mp3") /\
       omap saved_path out.2
       = [Py.path_join (OUTPUT_DIR cwd)
            ("tts_" +:+ strftime_YmdHMSf (o [] UtcNow) +:+ ".mp3")] /\
       existsb saved_ok out.2 = true).
Proof.
  intros out. subst out.
  unfold POST_api_tts, saved_path, tts_failure, is_gTTS, saved_ok.
  destruct (validate_TTSJob b) as [errors|job]; exec; observe;
    [split; [constructor|]; split; [now left | intros job; discriminate] |].
  unfold synthesize_speech.
  pose proof (truthy_strip (TTSJob.text job)) as Hblank.
  destruct (Py.truthy _); exec; observe.
  2:{ split; [constructor|]. split; [now left|].
      intros job' [= <-] Hb. rewrite Hb in Hblank. discriminate. }
  clear Hblank. rewrite !ext_mp3.
  answer Htts; exec; observe.
  2:{ split; [constructor|]. split; [right; eexists; left; reflexivity|].
      intros job' _ _. split; [reflexivity|]. split; [now right | discriminate]. }
  pose proof (endswith_path_join (OUTPUT_DIR cwd)
                (strftime_YmdHMSf (o [] UtcNow))) as Hpath.
  answer Hsave; exec; observe.
  - split; [now repeat constructor|]. split.
    + eexists. split; [reflexivity|]. split; [| reflexivity].
      rewrite <- !append_assoc. apply endswith_append.
    + intros job' _ _. split; [reflexivity|]. split; [now left|].
      intros _. eexists. repeat split; reflexivity.
  - split; [now repeat constructor|].
    split; [right; eexists; left; reflexivity|].
    intros job' _ _. split; [reflexivity|]. split; [now right | discriminate].
Qed.

(** A request for [wav] is served, as [.mp3]. *)
Lemma audio_is_always_mp3_witness :
  TTSJob.b_format body_wav = Given "wav" /\
  exists r,
    (run env_ok (POST_api_tts "/srv/app" body_wav) []).1 = Ok r /\
    status_code_of (run env_ok (POST_api_tts "/srv/app" body_wav) []).1 = 200 /\
    TTSResponse.audio_url r = Some "/generated/tts_20261104093807123456.mp3" /\
    omap saved_path (run env_ok (POST_api_tts "/srv/app" body_wav) []).2
    = ["/srv/app/generated/tts_20261104093807123456.mp3"].
Proof.
  split; [reflexivity|].
  destruct (audio_is_always_mp3 "/srv/app" env_ok body_wav) as (_ & _ & Hserved).
  destruct (Hserved {| TTSJob.text := " Hello world "; TTSJob.voice_id := None;
                       TTSJob.language := "en"; TTSJob.format := "wav" |}
              eq_refl eq_refl) as (_ & _ & Hok).
  destruct (Hok eq_refl) as (r & Hr & Hstatus & Hurl & Hpath & _).
  exists r. split; [exact Hr|]. split; [exact Hstatus|].
  split; [exact Hurl | exact Hpath].
Defined.

(** C8: a request that passes the schema, whose trimmed text is not empty
    and for which the engine saved the audio file, is answered with status
    200; the body has the eight fields of [TTSResponse], with [status] equal
    to [completed], [audio_url] equal to [/generated/tts_<ts>.mp3] for the
    rendering [<ts>] of the first clock reading, and [created_at] the ISO
    rendering of a second clock reading, which is the last call made. *)
Theorem synthesis_success_response (cwd : string) (o : Oracle)
    (b : TTSJob.body) (job : TTSJob.t) :
  validate_TTSJob b = inr job ->
  Py.strip (TTSJob.text job) <> "" ->
  let out := run o (POST_api_tts cwd b) [] in
  existsb saved_ok out.2 = true ->
  exists (job_id : string) (now now' : datetime),
    status_code_of out.1 = 200 /\
    out.1 = Ok {| TTSResponse.id := job_id;
                  TTSResponse.text := Py.strip (TTSJob.text job);
                  TTSResponse.voice_id := TTSJob.voice_id job;
                  TTSResponse.language := Py.or_ (TTSJob.language job) "en";
                  TTSResponse.format := Py.or_ (TTSJob.format job) "mp3";
                  TTSResponse.status := "completed";
                  TTSResponse.audio_url :=
                    Some ("/generated/tts_" +:+ strftime_YmdHMSf now +:+ ".mp3");
                  TTSResponse.created_at := Some (isoformat now') |} /\
    omap reading out.2 = [now; now'] /\
    last out.2 = Some (utcnow now').
Proof.
  intros Hv Htext out. subst out. unfold POST_api_tts. rewrite Hv.
  unfold synthesize_speech, saved_ok, reading.
  destruct (Py.truthy _); exec; observe; [| intros; discriminate].
  rewrite !ext_mp3.
  answer Htts; exec; observe; [| intros; discriminate].
  answer Hsave; exec; observe; [| intros; discriminate].
  intros _. eexists _, _, _. repeat split.
Qed.

(** The request [{"text": "Hello world", "language": "en"}]. *)
Lemma synthesis_success_response_witness :
  validate_TTSJob body_hello = inr job_hello /\
  existsb saved_ok (run env_ok (POST_api_tts "/srv/app" body_hello) []).2 = true /\
  exists job_id now now',
    (run env_ok (POST_api_tts "/srv/app" body_hello) []).1
    = Ok {| TTSResponse.id := job_id;
            TTSResponse.text := "Hello world";
            TTSResponse.voice_id := None;
            TTSResponse.language := "en";
            TTSResponse.format := "mp3";
            TTSResponse.status := "completed";
            TTSResponse.audio_url :=
              Some ("/generated/tts_" +:+ strftime_YmdHMSf now +:+ ".mp3");
            TTSResponse.created_at := Some (isoformat now') |} /\
    omap reading (run env_ok (POST_api_tts "/srv/app" body_hello) []).2
    = [now; now'].
Proof.
  split; [reflexivity|]. split; [reflexivity|].
  assert (Htext : Py.strip (TTSJob.text job_hello) <> "") by discriminate.
  destruct (synthesis_success_response "/srv/app" env_ok body_hello job_hello
              eq_refl Htext eq_refl)
    as (job_id & now & now' & _ & Hout & Hclock & _).
  exists job_id, now, now'. split; [exact Hout | exact Hclock].
Defined.

Example hello_world_response :
  (run env_ok (POST_api_tts "/srv/app" body_hello) []).1
  = Ok {| TTSResponse.id := "672890aa5f1c2d3e4f5a6b7c";
          TTSResponse.text := "Hello world";
          TTSResponse.voice_id := None;
          TTSResponse.language := "en";
          TTSResponse.format := "mp3";
          TTSResponse.status := "completed";
          TTSResponse.audio_url := Some "/generated/tts_20261104093807123456.mp3";
          TTSResponse.created_at := Some "2026-11-04T09:38:08" |}.
Proof. reflexivity. Qed.

(** The first clock reading of a call names its file: every path given to
    [tts.save] and the [audio_url] of the response are built from it. *)
Lemma synthesize_speech_names (cwd : string) (o : Oracle) (job : TTSJob.t)
    (t : datetime) :
  let out := run o (synthesize_speech cwd job) [] in
  head (omap reading out.2) = Some t ->
  (forall p, In p (omap saved_path out.2) ->
     p = Py.path_join (OUTPUT_DIR cwd) ("tts_" +:+ strftime_YmdHMSf t +:+ ".mp3")) /\
  (forall r, out.1 = Ok r ->
     TTSResponse.audio_url r
     = Some ("/generated/" +:+ "tts_" +:+ strftime_YmdHMSf t +:+ ".mp3")).
Proof.
  intros out. subst out. unfold synthesize_speech, reading, saved_path.
  destruct (Py.truthy _); exec; observe; [| intros; discriminate].
  rewrite !ext_mp3.
  answer Htts; exec; observe.
  - answer Hsave; exec; observe; intros [= <-]; split.
    + now intros p [<- | []].
    + now intros r [= <-].
    + now intros p [<- | []].
    + intros r; discriminate.
  - intros [= <-]; split; [intros p [] | intros r; discriminate].
Qed.

(** C4, as the code has it: two calls with the same input whose first clock
    readings differ, be it by one microsecond within the same second, save
    to different paths and return different [audio_url]s. *)
Theorem distinct_readings_distinct_files (cwd : string) (o1 o2 : Oracle)
    (job : TTSJob.t) (t1 t2 : datetime) :
  let out1 := run o1 (synthesize_speech cwd job) [] in
  let out2 := run o2 (synthesize_speech cwd job) [] in
  head (omap reading out1.2) = Some t1 ->
  head (omap reading out2.2) = Some t2 ->
  wf_datetime t1 -> wf_datetime t2 -> t1 <> t2 ->
  (forall p1 p2,
     In p1 (omap saved_path out1.2) -> In p2 (omap saved_path out2.2) -> p1 <> p2) /\
  (forall r1 r2,
     out1.1 = Ok r1 -> out2.1 = Ok r2 ->
     TTSResponse.audio_url r1 <> TTSResponse.audio_url r2).
Proof.
  intros out1 out2 H1 H2 W1 W2 Hne.
  destruct (synthesize_speech_names cwd o1 job t1 H1) as [Hp1 Hu1].
  destruct (synthesize_speech_names cwd o2 job t2 H2) as [Hp2 Hu2].
  split.
  - intros p1 p2 Hin1 Hin2 Heq.
    rewrite (Hp1 _ Hin1), (Hp2 _ Hin2) in Heq.
    destruct (path_join_relative (OUTPUT_DIR cwd)) as [dir Hdir].
    rewrite !Hdir in Heq by apply tts_name_relative.
    apply append_cancel_l in Heq. now apply Hne, tts_name_inj.
  - intros r1 r2 Hr1 Hr2 Heq.
    rewrite (Hu1 _ Hr1), (Hu2 _ Hr2) in Heq. apply (inj Some) in Heq.
    apply append_cancel_l in Heq. now apply Hne, tts_name_inj.
Qed.

(** Two calls one microsecond apart, within the same second. *)
Lemma distinct_readings_distinct_files_witness :
  second t_093807_123456 = second t_093807_123457 /\
  exists r1 r2,
    (run env_ok (synthesize_speech "/srv/app" job_hello) []).1 = Ok r1 /\
    (run env_ok_later (synthesize_speech "/srv/app" job_hello) []).1 = Ok r2 /\
    TTSResponse.audio_url r1 <> TTSResponse.audio_url r2.
Proof.
  split; [reflexivity|].
  assert (W1 : wf_datetime t_093807_123456) by (unfold wf_datetime; cbn; lia).
  assert (W2 : wf_datetime t_093807_123457) by (unfold wf_datetime; cbn; lia).
  assert (Hne : t_093807_123456 <> t_093807_123457) by discriminate.
  destruct (distinct_readings_distinct_files "/srv/app" env_ok env_ok_later
              job_hello _ _ eq_refl eq_refl W1 W2 Hne) as [_ Hurl].
  eexists _, _. split; [reflexivity|]. split; [reflexivity|].
  apply Hurl; reflexivity.
Defined.

(** C4, as the claim has it, fails: two calls with the same input that read
    the same microsecond from the clock (here two requests answered with
    different job ids) save to the same path and return the same
    [audio_url]. *)
Lemma same_reading_same_file :
  exists r1 r2,
    (run env_ok (synthesize_speech "/srv/app" job_hello) []).1 = Ok r1 /\
    (run env_same_instant (synthesize_speech "/srv/app" job_hello) []).1 = Ok r2 /\
    TTSResponse.id r1 <> TTSResponse.id r2 /\
    TTSResponse.audio_url r1 = TTSResponse.audio_url r2 /\
    omap saved_path (run env_ok (synthesize_speech "/srv/app" job_hello) []).2
    = omap saved_path
        (run env_same_instant (synthesize_speech "/srv/app" job_hello) []).2.
Proof.
  eexists _, _. split; [reflexivity|]. split; [reflexivity|].
  split; [discriminate|]. split; reflexivity.
Qed.

(** C10, as the code has it: when the audio file has been saved, the
    document given to [create_document] and the response carry the same
    [format]: the requested string when it is not empty, and [mp3] when the
    member is absent or empty; both carry the trimmed text; and both carry
    an [audio_url] that ends in [.mp3] whatever that recorded format is. *)
Theorem recorded_format_is_requested (cwd : string) (o : Oracle)
    (b : TTSJob.body) (job : TTSJob.t) :
  validate_TTSJob b = inr job ->
  let out := run o (POST_api_tts cwd b) [] in
  existsb saved_ok out.2 = true ->
  exists (r : TTSResponse.t) (d : Doc) (recorded url : string),
    out.1 = Ok r /\ omap inserted_dict out.2 = [("ttsjob", d)] /\
    TTSResponse.format r = recorded /\ d !! "format" = Some (VStr recorded) /\
    (forall f, TTSJob.b_format b = Given f -> f <> "" -> recorded = f) /\
    (TTSJob.b_format b = Absent \/ TTSJob.b_format b = Given "" -> recorded = "mp3") /\
    (forall f, TTSJob.b_format b = Given f -> f <> "" -> f <> "mp3" ->
       recorded <> "mp3") /\
    TTSResponse.text r = Py.strip (TTSJob.text job) /\
    d !! "text" = Some (VStr (Py.strip (TTSJob.text job))) /\
    TTSResponse.audio_url r = Some url /\ d !! "audio_url" = Some (VStr url) /\
    Py.endswith url ".mp3" = true.
Proof.
  intros Hv out. subst out. unfold POST_api_tts. rewrite Hv.
  apply validate_TTSJob_accepted in Hv as (_ & _ & _ & _ & Hf).
  unfold synthesize_speech, saved_ok, inserted_dict.
  destruct (Py.truthy _); exec; observe; [| intros; discriminate].
  rewrite !ext_mp3.
  answer Htts; exec; observe; [| intros; discriminate].
  answer Hsave; exec; observe; [| intros; discriminate].
  intros _. eexists _, _, _, _.
  split; [reflexivity|]. split; [reflexivity|]. split; [reflexivity|].
  split; [reflexivity|]. split; [| split; [| split]].
  - intros f Hb Hne. rewrite Hb in Hf. injection Hf as <-.
    destruct f; [congruence | reflexivity].
  - intros [Hb | Hb]; rewrite Hb in Hf; injection Hf as <-; reflexivity.
  - intros f Hb Hne Hmp3. rewrite Hb in Hf. injection Hf as <-.
    destruct f; [congruence | exact Hmp3].
  - split; [reflexivity|]. split; [reflexivity|]. split; [reflexivity|].
    split; [reflexivity|].
    change ("." +:+ "mp3") with ".mp3".
    rewrite <- !append_assoc. apply endswith_append.
Qed.

(** A request for [wav]: recorded as [wav], served as [.mp3]. *)
Lemma recorded_format_is_requested_witness :
  exists r d,
    (run env_ok (POST_api_tts "/srv/app" body_wav) []).1 = Ok r /\
    omap inserted_dict (run env_ok (POST_api_tts "/srv/app" body_wav) []).2
    = [("ttsjob", d)] /\
    TTSResponse.format r = "wav" /\ d !! "format" = Some (VStr "wav") /\
    TTSResponse.text r = "Hello world" /\
    TTSResponse.audio_url r = Some "/generated/tts_20261104093807123456.mp3".
Proof.
  destruct (recorded_format_is_requested "/srv/app" env_ok body_wav
              {| TTSJob.text := " Hello world "; TTSJob.voice_id := None;
                 TTSJob.language := "en"; TTSJob.format := "wav" |}
              eq_refl eq_refl)
    as (r & d & recorded & url & Hr & Hd & Hfr & Hfd & Hgiven & _ & _ & Ht & _ & Hu & _).
  exists r, d. split; [exact Hr|]. split; [exact Hd|].
  rewrite (Hgiven "wav" eq_refl) in Hfr, Hfd by discriminate.
  split; [exact Hfr|]. split; [exact Hfd|]. split; [exact Ht|].
  vm_compute in Hr. injection Hr as <-. reflexivity.
Defined.

(** C10, as the claim has it, fails: a [format] member that is present and
    empty is not recorded verbatim; the response and the document carry
    [mp3]. *)
Lemma empty_format_is_recorded_as_mp3 :
  TTSJob.b_format body_empty_format = Given "" /\
  exists r d,
    (run env_ok (POST_api_tts "/srv/app" body_empty_format) []).1 = Ok r /\
    omap inserted_dict (run env_ok (POST_api_tts "/srv/app" body_empty_format) []).2
    = [("ttsjob", d)] /\
    TTSResponse.format r = "mp3" /\ TTSResponse.format r <> "" /\
    d !! "format" = Some (VStr "mp3").
Proof.
  split; [reflexivity|]. eexists _, _.
  split; [reflexivity|]. split; [reflexivity|].
  split; [reflexivity|]. split; [discriminate|]. reflexivity.
Qed.

(** The built-in catalog. *)
Lemma DEFAULT_VOICES_columns :
  column "name" DEFAULT_VOICES
  = [Some (VStr "Nova"); Some (VStr "Aria"); Some (VStr "Sora"); Some (VStr "Mateo")] /\
  column "language" DEFAULT_VOICES
  = [Some (VStr "en"); Some (VStr "en-GB"); Some (VStr "ja"); Some (VStr "es")] /\
  column "description" DEFAULT_VOICES
  = [Some (VStr "Warm, clear American English voice");
     Some (VStr "Natural British English voice");
     Some (VStr "Smooth Japanese voice");
     Some (VStr "Crisp Spanish voice")].
Proof. repeat split; vm_compute; reflexivity. Qed.

Lemma NoDup_by_decision {A} `{EqDecision A} (l : list A) :
  bool_decide (NoDup l) = true -> NoDup l.
Proof. apply bool_decide_eq_true_1. Qed.

(** C6: the listing answers with the built-in catalog (four voices, no two
    with the same name, description, language or avatar) when [db] is
    [None], when [get_documents] raises and when it returns no document;
    when it returns at least one document, the listing answers with the
    documents returned, each without its [_id]. *)
Theorem list_voices_fallback_or_stored (o : Oracle) :
  let out := run o GET_api_voices [] in
  (List.length DEFAULT_VOICES = 4%nat /\
   NoDup (column "name" DEFAULT_VOICES) /\
   NoDup (column "description" DEFAULT_VOICES) /\
   NoDup (column "language" DEFAULT_VOICES) /\
   NoDup (column "avatar_url" DEFAULT_VOICES) /\
   Forall (fun v : Doc => v !! "_id" = None) DEFAULT_VOICES) /\
  match o [] DbHandle with
  | false => out = (Ok DEFAULT_VOICES, [db_handle false])
  | true =>
      match o [DbHandle] (GetDocuments "voice" None) with
      | Raises e =>
          out = (Ok DEFAULT_VOICES,
                 [db_handle true; get_documents "voice" None (Raises e)])
      | Returns [] =>
          out = (Ok DEFAULT_VOICES,
                 [db_handle true; get_documents "voice" None (Returns [])])
      | Returns (v :: vs) =>
          out = (Ok (map (fun v : Doc => delete "_id" v) (v :: vs)),
                 [db_handle true; get_documents "voice" None (Returns (v :: vs))])
      end
  end.
Proof.
  intros out. subst out. split.
  - split; [reflexivity|].
    repeat (split; [apply NoDup_by_decision; vm_compute; reflexivity|]).
    repeat constructor.
  - unfold GET_api_voices, list_voices. exec.
    answer Hdb; exec; [| reflexivity].
    answer Hdocs; exec; [| reflexivity].
    destruct a as [|v vs]; reflexivity.
Qed.

(** C7, as the code has it: a voice body without [name] or without
    [language] (absent or null) is refused by the schema with status 422 and
    no call is made; a body that has both, and an [avatar_url] that is
    absent, null or a valid URL, is accepted whatever the name, the empty
    string included, and is given to [create_document]. *)
Theorem register_requires_name_and_language (HttpUrl : string -> option string)
    (o : Oracle) (b : Voice.body) :
  let out := run o (POST_api_voices HttpUrl b) [] in
  if missing (Voice.b_name b) || missing (Voice.b_language b) then
    exists errors,
      out = (RequestValidationError errors, []) /\
      client_error (status_code_of out.1) = true /\
      (missing (Voice.b_name b) = true -> In "name" errors) /\
      (missing (Voice.b_language b) = true -> In "language" errors)
  else
    match optional (Voice.b_avatar_url b) with
    | Some url =>
        match HttpUrl url with
        | Some _ =>
            exists v r, Voice.b_name b = Given (Voice.name v) /\
                        out.2 = [create_document "voice" (Model v) r]
        | None => exists errors, out = (RequestValidationError errors, [])
        end
    | None =>
        exists v r, Voice.b_name b = Given (Voice.name v) /\
                    out.2 = [create_document "voice" (Model v) r]
    end.
Proof.
  intros out. subst out. unfold POST_api_voices, validate_Voice, optional_url,
    required, create_voice.
  destruct (Voice.b_name b) as [| |n], (Voice.b_language b) as [| |l];
    cbn [missing orb optional];
    try (destruct (Voice.b_avatar_url b) as [| |u]; [| |destruct (HttpUrl u)];
         exec; eexists; (split; [reflexivity|]); (split; [reflexivity|]);
         split; intros; cbn; auto; discriminate).
  destruct (Voice.b_avatar_url b) as [| |u]; cbn [optional];
    [| |destruct (HttpUrl u)]; exec.
  - answer Hins; exec; eexists _, _; (split; [| reflexivity]); reflexivity.
  - answer Hins; exec; eexists _, _; (split; [| reflexivity]); reflexivity.
  - answer Hins; exec; eexists _, _; (split; [| reflexivity]); reflexivity.
  - eexists. reflexivity.
Qed.

(** C7, as the claim has it, fails: a voice with an empty name passes the
    schema and is inserted. *)
Lemma empty_name_is_registered :
  Voice.b_name voice_empty_name = Given "" /\
  exists v,
    Voice.name v = "" /\
    run env_ok (POST_api_voices any_url voice_empty_name) []
    = (Ok "672890aa5f1c2d3e4f5a6b7c",
       [create_document "voice" (Model v) (Returns "672890aa5f1c2d3e4f5a6b7c")]).
Proof. split; [reflexivity|]. eexists. split; [| reflexivity]. reflexivity. Qed.

Example voice_without_name_is_refused :
  run env_ok (POST_api_voices any_url voice_no_name) []
  = (RequestValidationError ["name"], []).
Proof. reflexivity. Qed.

(** What the loop of [list_jobs] does to one document. *)
Lemma serialize_id_exposes (j : Doc) (oid : Value) :
  j !! "_id" = Some oid ->
  serialize_id j !! "id" = Some (VStr (str oid)) /\
  serialize_id j !! "_id" = None /\
  forall k, k <> "id" -> k <> "_id" -> serialize_id j !! k = j !! k.
Proof.
  intros H. unfold serialize_id. rewrite H. split; [| split].
  - apply lookup_insert_eq.
  - rewrite lookup_insert_ne by discriminate. apply lookup_delete_eq.
  - intros k Hid H_id.
    rewrite lookup_insert_ne by congruence.
    now rewrite lookup_delete_ne by congruence.
Qed.

Lemma serialize_id_without (j : Doc) : j !! "_id" = None -> serialize_id j = j.
Proof. intros H. unfold serialize_id. now rewrite H. Qed.




(** ** The diagnostics route *)

Section DiagnosticsFacts.

Import Diagnostics.

(** The four ways through [test_database]. *)
Lemma test_database_cases (env : Env) :
  let r := test_database env in
  match db env with
  | None =>
      r !! "database" = Some (DStr (WARN ++ U "  Available but not initialized")%list) /\
      r !! "connection_status" = Some (DStr (U "Not Connected")) /\
      r !! "collections" = Some (DList [])
  | Some d =>
      match name d with
      | AttributeFails e =>
          r !! "database" = Some (DStr (CROSS ++ U " Error: " ++ str50 e)%list) /\
          r !! "connection_status" = Some (DStr (U "Not Connected")) /\
          r !! "collections" = Some (DList [])
      | _ =>
          r !! "connection_status" = Some (DStr (U "Connected")) /\
          match list_collection_names d with
          | Returns names =>
              r !! "database" = Some (DStr (CHECK ++ U " Connected & Working")%list) /\
              r !! "collections" = Some (DList (take 10 names))
          | Raises e =>
              r !! "database"
              = Some (DStr (WARN ++ U "  Connected but Error: " ++ str50 e)%list) /\
              r !! "collections" = Some (DList [])
          end
      end
  end.
Proof.
  intros r. subst r. unfold test_database, hasattr_name, getattr_name.
  destruct (db env) as [d|]; [| repeat split; reflexivity].
  destruct (name d) as [|v|e];
    try (split; [reflexivity|]);
    try (destruct (list_collection_names d) as [names|e']);
    repeat split; reflexivity.
Qed.

Lemma is_set_iff (env : Env) (k : string) :
  is_set env k = true <-> exists v, getenv env k = Some v /\ v <> "".
Proof.
  unfold is_set. destruct (getenv env k) as [v|].
  - destruct v; cbn; split.
    + discriminate.
    + intros (v & [= <-] & Hv). congruence.
    + intros _. eexists. split; [reflexivity | discriminate].
    + reflexivity.
  - split; [discriminate | intros (v & Hv & _); discriminate].
Qed.

(** X1: the response of [test_database] always has the same six keys, and
    its [database_url] and [database_name] say only whether the variables
    [DATABASE_URL] and [DATABASE_NAME] hold a non-empty value: the name the
    database object reports is written and then overwritten, whatever the
    database does. *)
Theorem test_database_reports_environment (env : Env) :
  let r := test_database env in
  dom r = ({[ "backend"; "database"; "database_url"; "database_name";
              "connection_status"; "collections" ]} : gset string) /\
  r !! "backend" = Some (DStr (CHECK ++ U " Running")%list) /\
  r !! "database_url"
  = Some (DStr (if is_set env "DATABASE_URL" then CHECK ++ U " Set"
                else CROSS ++ U " Not Set")%list) /\
  r !! "database_name"
  = Some (DStr (if is_set env "DATABASE_NAME" then CHECK ++ U " Set"
                else CROSS ++ U " Not Set")%list) /\
  forall k, is_set env k = true <-> exists v, getenv env k = Some v /\ v <> "".
Proof.
  intros r. subst r.
  assert (Hdom : dom (test_database env)
                 = ({[ "backend"; "database"; "database_url"; "database_name";
                       "connection_status"; "collections" ]} : gset string) /\
                 test_database env !! "backend"
                 = Some (DStr (CHECK ++ U " Running")%list)).
  { unfold test_database, hasattr_name, getattr_name.
    destruct (db env) as [d|]; [| split; reflexivity].
    destruct (name d) as [|v|e];
      try (destruct (list_collection_names d) as [names|e']);
      split; reflexivity. }
  destruct Hdom as [Hdom Hbackend].
  split; [exact Hdom|]. split; [exact Hbackend|].
  split.
  { unfold test_database. cbn zeta.
    rewrite lookup_insert_ne by discriminate. apply lookup_insert_eq. }
  split; [unfold test_database; cbn zeta; apply lookup_insert_eq|].
  intros k. apply is_set_iff.
Qed.

(** X2: [collections] holds at most ten names, the first ten that
    [list_collection_names] returned; it is empty when there is no database,
    when the lookup of its name fails and when the listing raises. *)
Theorem test_database_collections_bounded (env : Env) :
  exists l,
    test_database env !! "collections" = Some (DList l) /\
    (List.length l <= 10)%nat /\
    (l <> [] ->
     exists d names,
       db env = Some d /\ list_collection_names d = Returns names /\
       l = take 10 names /\ l `prefix_of` names /\
       test_database env !! "database"
       = Some (DStr (CHECK ++ U " Connected & Working")%list)).
Proof.
  pose proof (test_database_cases env) as H. cbn zeta in H.
  destruct (db env) as [d|].
  - destruct (name d) as [|v|e] eqn:Hn.
    1,2: destruct H as [_ H];
      destruct (list_collection_names d) as [names|e'] eqn:Hl;
      destruct H as [Hdb Hc]; rewrite Hc;
      (eexists; split; [reflexivity|]; split;
       [ first [rewrite length_take; lia | cbn; lia]
       | intros Hne; try congruence;
         exists d, names; rewrite Hdb;
         repeat split; try reflexivity; try assumption; apply prefix_take ]).
    destruct H as (_ & _ & Hc). rewrite Hc.
    exists []. split; [reflexivity|]. split; [cbn; lia | congruence].
  - destruct H as (_ & _ & Hc). rewrite Hc.
    exists []. split; [reflexivity|]. split; [cbn; lia | congruence].
Qed.

(** X3: the two status fields fit together.  [database] says
    [Connected & Working] exactly when the database is there, its name can
    be looked up and the listing returns; [connection_status] says
    [Connected] exactly when the database is there and its name can be
    looked up, be the listing broken or not. *)
Theorem test_database_status_consistent (env : Env) :
  let r := test_database env in
  let usable := exists d, db env = Some d /\ forall e, name d <> AttributeFails e in
  (r !! "connection_status" = Some (DStr (U "Connected")) <-> usable) /\
  (r !! "database" = Some (DStr (CHECK ++ U " Connected & Working")%list) <->
   usable /\ exists d names, db env = Some d /\ list_collection_names d = Returns names) /\
  (r !! "connection_status" = Some (DStr (U "Connected")) \/
   r !! "connection_status" = Some (DStr (U "Not Connected"))).
Proof.
  intros r usable. subst r usable.
  pose proof (test_database_cases env) as H. cbn zeta in H.
  destruct (db env) as [d|].
  - assert (Hok : (forall e, name d <> AttributeFails e) ->
                  exists d', Some d = Some d' /\ forall e, name d' <> AttributeFails e)
      by (intros Hd; exists d; split; [reflexivity | exact Hd]).
    destruct (name d) as [|v|e] eqn:Hn.
    1,2: destruct H as [Hs H]; rewrite Hs;
      specialize (Hok ltac:(intros; discriminate));
      (split; [split; [intros _; exact Hok | reflexivity] |]);
      (split; [| now left]);
      destruct (list_collection_names d) as [names|e'] eqn:Hl;
      destruct H as [Hdb _]; rewrite Hdb;
      [ split; [intros _; split; [exact Hok | now exists d, names] | reflexivity]
      | split; [discriminate
               | intros [_ (d' & names' & Hd' & Hl')];
                 injection Hd' as <-; congruence] ].
    destruct H as (Hdb & Hs & _). rewrite Hs, Hdb.
    assert (Hno : ~ exists d', Some d = Some d' /\ forall e0, name d' <> AttributeFails e0).
    { intros (d' & Hd' & Hf). injection Hd' as <-. now destruct (Hf e). }
    split; [split; [discriminate | intros Hu; now destruct Hno] |].
    split; [| now right].
    split; [discriminate | intros [Hu _]; now destruct Hno].
  - destruct H as (Hdb & Hs & _). rewrite Hs, Hdb.
    split; [split; [discriminate | intros (d' & Hd' & _); discriminate] |].
    split; [| now right].
    split; [discriminate | intros [(d' & Hd' & _) _]; discriminate].
Qed.

Lemma str50_length (e : Exception) : (List.length (str50 e) <= 50)%nat.
Proof. unfold str50. rewrite length_take. lia. Qed.

Lemma error_message_length (prefix : ustr) (e : Exception) :
  (List.length (prefix ++ str50 e) <= List.length prefix + 50)%nat.
Proof. rewrite length_app. pose proof (str50_length e). lia. Qed.

(** X4: whatever the length of an exception's message, the [database]
    field is a string of at most 75 characters: a message is cut to its
    first fifty characters. *)
Theorem test_database_message_bounded (env : Env) :
  exists s,
    test_database env !! "database" = Some (DStr s) /\
    (List.length s <= 75)%nat /\
    (forall d e, db env = Some d -> name d = AttributeFails e ->
       s = (CROSS ++ U " Error: " ++ take 50 (U (message_of e)))%list) /\
    (forall d e, db env = Some d -> (forall e', name d <> AttributeFails e') ->
       list_collection_names d = Raises e ->
       s = (WARN ++ U "  Connected but Error: " ++ take 50 (U (message_of e)))%list).
Proof.
  pose proof (test_database_cases env) as H. cbn zeta in H.
  destruct (db env) as [d|].
  - destruct (name d) as [|v|e] eqn:Hn.
    1,2: destruct H as [_ H];
      destruct (list_collection_names d) as [names|e'] eqn:Hl;
      destruct H as [Hdb _]; rewrite Hdb;
      (eexists; split; [reflexivity|]; split;
       [ first [ rewrite app_assoc; etransitivity;
                 [apply error_message_length | cbn; lia]
               | cbn; lia ] |];
       split;
       [ intros d' e0 [= <-] Hd'; congruence
       | intros d' e0 [= <-] _ Hl'; unfold str50; congruence ]).
    destruct H as (Hdb & _). rewrite Hdb.
    eexists; split; [reflexivity|]; split;
      [ first [ rewrite app_assoc; etransitivity;
                 [apply error_message_length | cbn; lia]
               | cbn; lia ] |].
    split.
    + intros d' e0 [= <-] Hd'. rewrite Hn in Hd'. now injection Hd' as <-.
    + intros d' e0 [= <-] Hd'. now destruct (Hd' e).
  - destruct H as (Hdb & _). rewrite Hdb.
    eexists; split; [reflexivity|]; split; [cbn; lia|].
    split; intros; discriminate.
Qed.

Example test_database_sample :
  test_database diag_ok !! "collections" = Some (DList (take 10 twelve_names)) /\
  test_database diag_ok !! "database_name" = Some (DStr (CROSS ++ U " Not Set")%list) /\
  test_database diag_broken !! "connection_status" = Some (DStr (U "Connected")) /\
  test_database diag_broken !! "database"
  = Some (DStr (WARN ++ U "  Connected but Error: "
                  ++ U "ServerSelectionTimeoutError: localhost:27017: [Err")%list).
Proof. repeat split; vm_compute; reflexivity. Qed.

End DiagnosticsFacts.

(** ** What the engine is given *)

Lemma lstrip_length (s : string) :
  (String.length (Py.lstrip s) <= String.length s)%nat.
Proof.
  induction s as [|c s IH]; cbn [Py.lstrip String.length]; [lia|].
  destruct (Py.isspace c); cbn [String.length]; lia.
Qed.

Lemma rstrip_length (s : string) :
  (String.length (Py.rstrip s) <= String.length s)%nat.
Proof.
  induction s as [|c s IH]; cbn [Py.rstrip String.length]; [lia|].
  destruct (Py.rstrip s) as [|c' r].
  - destruct (Py.isspace c); cbn [String.length]; lia.
  - cbn [String.length] in *. lia.
Qed.

Lemma strip_length (s : string) :
  (String.length (Py.strip s) <= String.length s)%nat.
Proof.
  unfold Py.strip. pose proof (rstrip_length (Py.lstrip s)).
  pose proof (lstrip_length s). lia.
Qed.

Lemma lstrip_first (s : string) (c : ascii) :
  first_char (Py.lstrip s) = Some c -> Py.isspace c = false.
Proof.
  induction s as [|a s IH]; cbn [Py.lstrip]; [discriminate|].
  destruct (Py.isspace a) eqn:Ha; [exact IH|].
  cbn. now intros [= <-].
Qed.

Lemma rstrip_first (s : string) (c : ascii) :
  first_char (Py.rstrip s) = Some c -> first_char s = Some c.
Proof.
  destruct s as [|a s]; cbn [Py.rstrip]; [discriminate|].
  destruct (Py.rstrip s); [destruct (Py.isspace a)|]; cbn; easy.
Qed.

Lemma rstrip_last (s : string) (c : ascii) :
  last_char (Py.rstrip s) = Some c -> Py.isspace c = false.
Proof.
  induction s as [|a s IH]; cbn [Py.rstrip]; [discriminate|].
  destruct (Py.rstrip s) as [|b r].
  - destruct (Py.isspace a) eqn:Ha; cbn; [discriminate | now intros [= <-]].
  - exact IH.
Qed.

Lemma or_truthy (a b : string) : b <> "" -> Py.or_ a b <> "".
Proof. unfold Py.or_. destruct a; cbn; [easy | discriminate]. Qed.

(** X5: whatever the body, every call of the engine (its construction and
    its [save]) gets a text that is not empty, has no whitespace at either
    end and has at most 2000 characters, and a language that is not empty
    ([en] stands in for an empty one). *)
Theorem engine_input_is_clean (cwd : string) (o : Oracle) (b : TTSJob.body) :
  Forall (fun tl : string * string =>
            tl.1 <> "" /\
            (forall c, first_char tl.1 = Some c -> Py.isspace c = false) /\
            (forall c, last_char tl.1 = Some c -> Py.isspace c = false) /\
            (String.length tl.1 <= 2000)%nat /\
            tl.2 <> "")
         (omap engine_input (run o (POST_api_tts cwd b) []).2).
Proof.
  unfold POST_api_tts.
  destruct (validate_TTSJob b) as [errors|job] eqn:Hv; [constructor|].
  apply validate_TTSJob_accepted in Hv as (_ & [_ Hlen] & _).
  assert (Hclean :
            Py.truthy (Py.strip (TTSJob.text job)) = true ->
            Py.strip (TTSJob.text job) <> "" /\
            (forall c, first_char (Py.strip (TTSJob.text job)) = Some c ->
                       Py.isspace c = false) /\
            (forall c, last_char (Py.strip (TTSJob.text job)) = Some c ->
                       Py.isspace c = false) /\
            (String.length (Py.strip (TTSJob.text job)) <= 2000)%nat /\
            Py.or_ (TTSJob.language job) "en" <> "").
  { intros Ht. split; [now destruct (Py.strip (TTSJob.text job))|].
    split; [intros c Hc; apply rstrip_first in Hc; now apply lstrip_first in Hc|].
    split; [intros c; apply rstrip_last|].
    split; [pose proof (strip_length (TTSJob.text job)); lia|].
    now apply or_truthy. }
  unfold synthesize_speech, engine_input.
  destruct (Py.truthy _); exec; observe; [| constructor].
  specialize (Hclean eq_refl).
  answer Htts; exec; observe;
    [| repeat (apply Forall_cons_2; [exact Hclean|]); apply Forall_nil_2].
  answer Hsave; exec; observe;
    repeat (apply Forall_cons_2; [exact Hclean|]); apply Forall_nil_2.
Qed.

Example engine_input_sample :
  omap engine_input (run env_ok (POST_api_tts "/srv/app" body_wav) []).2
  = [("Hello world", "en"); ("Hello world", "en")].
Proof. reflexivity. Qed.

(** ** The order of the side effects *)

(** X6: a document reaches the store only after the audio file has been
    saved.  Whenever the log of a request holds an insert, the log is the
    full chain clock, engine, save, insert, clock, with the engine and the
    save both returned; the insert goes to [ttsjob] and its [audio_url]
    names the file that was saved. *)
Theorem insert_follows_save (cwd : string) (o : Oracle) (job : TTSJob.t)
    (coll : string) (data : Payload) (res : result string) :
  In (create_document coll data res) (run o (synthesize_speech cwd job) []).2 ->
  exists now now' text lang fname d,
    (run o (synthesize_speech cwd job) []).2
    = [ utcnow now; gTTS text lang (Returns tt);
        save text lang (Py.path_join (OUTPUT_DIR cwd) fname) (Returns tt);
        create_document coll data res; utcnow now' ] /\
    coll = "ttsjob" /\ data = Dict d /\
    d !! "audio_url" = Some (VStr ("/generated/" +:+ fname)).
Proof.
  unfold synthesize_speech.
  destruct (Py.truthy _); exec; [| intros []].
  rewrite !ext_mp3.
  answer Htts; exec; [| intros [H | [H | []]]; discriminate].
  answer Hsave; exec; [| intros [H | [H | [H | []]]]; discriminate].
  destruct a, a0.
  intros [H | [H | [H | [H | [H | []]]]]]; try discriminate.
  injection H as <- <- <-.
  eexists _, _, _, _, _, _. split; [reflexivity|].
  split; [reflexivity|]. split; reflexivity.
Qed.

(** The store that rejects the write is still asked after the save. *)
Lemma insert_follows_save_witness :
  exists d,
    In (create_document "ttsjob" (Dict d) (Raises (Exc "write rejected")))
       (run env_insert_fails (synthesize_speech "/srv/app" job_hello) []).2 /\
    existsb saved_ok
      (take 3 (run env_insert_fails (synthesize_speech "/srv/app" job_hello) []).2)
    = true /\
    d !! "audio_url" = Some (VStr "/generated/tts_20261104093807123456.mp3").
Proof.
  eexists.
  assert (Hin : In (create_document "ttsjob" (Dict hello_document)
                      (Raises (Exc "write rejected")))
                   (run env_insert_fails (synthesize_speech "/srv/app" job_hello) []).2)
    by (do 3 right; left; reflexivity).
  split; [exact Hin|].
  destruct (insert_follows_save "/srv/app" env_insert_fails job_hello _ _ _ Hin)
    as (now & now' & text & lang & fname & d & Hlog & _ & _ & _).
  split; [rewrite Hlog; reflexivity | reflexivity].
Defined.

(** X7: the status of [POST /api/tts] tells how far the request went: 422
    when the body fails the schema, 400 when it passes it with a blank text,
    500 when the engine raised, and 200 exactly when the audio file was
    saved, which is also exactly when an insert was attempted.  No other
    status occurs. *)
Theorem tts_status_by_phase (cwd : string) (o : Oracle) (b : TTSJob.body) :
  let out := run o (POST_api_tts cwd b) [] in
  let status := status_code_of out.1 in
  (status = 422 <-> exists errors, validate_TTSJob b = inl errors) /\
  (status = 400 <->
   exists job, validate_TTSJob b = inr job /\ Py.blank (TTSJob.text job) = true) /\
  (status = 500 <-> omap tts_failure out.2 <> []) /\
  (status = 200 <-> existsb saved_ok out.2 = true) /\
  (status = 200 <-> existsb is_insert out.2 = true) /\
  (status = 200 \/ status = 400 \/ status = 422 \/ status = 500).
Proof.
  intros out status. subst out status. unfold POST_api_tts.
  destruct (validate_TTSJob b) as [errors|job] eqn:Hv.
  { exec. cbn. repeat split; try discriminate; try congruence; eauto;
      try (intros (job & Hj & _); discriminate). }
  assert (H422 : ~ exists errors : list string, @inr (list string) _ job = inl errors)
    by (intros [? ?]; discriminate).
  unfold synthesize_speech, tts_failure, saved_ok, is_insert.
  pose proof (truthy_strip (TTSJob.text job)) as Hblank.
  destruct (Py.truthy _); exec; observe.
  2:{ cbn. symmetry in Hblank. apply negb_false_iff in Hblank.
      repeat split; try discriminate; try congruence; eauto;
        try (intros [? ?]; discriminate). }
  assert (H400 : ~ exists job' : TTSJob.t,
                   @inr (list string) _ job = inr job' /\
                   Py.blank (TTSJob.text job') = true).
  { intros (job' & [= <-] & Hb). rewrite Hb in Hblank. discriminate. }
  clear Hblank.
  answer Htts; exec; observe;
    [answer Hsave; exec; observe |]; cbn;
    repeat split; try discriminate; try congruence; try tauto; eauto.
Qed.

(** ** The job document *)

(** X8: when a request is answered with a response, exactly one document
    was handed to the store; it has the six keys [text], [voice_id],
    [language], [format], [status], [audio_url] and no other (no [id], no
    [created_at]), each with the value the response carries, and the [id]
    of the response is what the insert returned, or empty if it raised. *)
Theorem job_document_matches_response (cwd : string) (o : Oracle)
    (job : TTSJob.t) (r : TTSResponse.t) :
  (run o (synthesize_speech cwd job) []).1 = Ok r ->
  exists d res,
    List.filter is_insert (run o (synthesize_speech cwd job) []).2
    = [create_document "ttsjob" (Dict d) res] /\
    dom d = job_keys /\
    d !! "text" = Some (VStr (TTSResponse.text r)) /\
    d !! "voice_id" = Some (of_optional (TTSResponse.voice_id r)) /\
    d !! "language" = Some (VStr (TTSResponse.language r)) /\
    d !! "format" = Some (VStr (TTSResponse.format r)) /\
    d !! "status" = Some (VStr (TTSResponse.status r)) /\
    d !! "audio_url" = VStr <$> TTSResponse.audio_url r /\
    TTSResponse.id r = match res with Returns i => i | Raises _ => "" end.
Proof.
  unfold synthesize_speech, is_insert.
  destruct (Py.truthy _); exec; observe; [| discriminate].
  rewrite !ext_mp3.
  answer Htts; exec; observe; [| discriminate].
  answer Hsave; exec; observe; [| discriminate].
  intros [= <-]. eexists _, _. split; [reflexivity|].
  cbn [TTSResponse.text TTSResponse.voice_id TTSResponse.language
       TTSResponse.format TTSResponse.status TTSResponse.audio_url
       TTSResponse.id fmap option_fmap option_map].
  repeat split; reflexivity.
Qed.

Lemma job_keys_exclude :
  ("created_at" ∉ job_keys) /\ ("id" ∉ job_keys) /\ ("_id" ∉ job_keys).
Proof.
  repeat split; apply (bool_decide_unpack _); vm_compute; exact I.
Qed.

Lemma job_document_matches_response_witness :
  exists d res,
    List.filter is_insert (run env_ok (synthesize_speech "/srv/app" job_hello) []).2
    = [create_document "ttsjob" (Dict d) res] /\
    dom d = job_keys /\ d !! "created_at" = None /\ d !! "id" = None /\
    d !! "audio_url" = Some (VStr "/generated/tts_20261104093807123456.mp3").
Proof.
  destruct (job_document_matches_response "/srv/app" env_ok job_hello _ eq_refl)
    as (d & res & Hlog & Hdom & _ & _ & _ & _ & _ & Hurl & _).
  exists d, res. split; [exact Hlog|]. split; [exact Hdom|].
  split; [| split; [| exact Hurl]];
    apply not_elem_of_dom; rewrite Hdom; apply job_keys_exclude.
Defined.

(** ** The name of the audio file *)

Lemma digit_is_digit (n : Z) : is_digit (digit n) = true.
Proof.
  unfold is_digit, digit, Py.code.
  assert (H : 0 <= n mod 10 < 10) by (apply Z.mod_pos_bound; lia).
  rewrite N_ascii_embedding by lia.
  rewrite Z2N.id by lia.
  apply andb_true_iff. split; apply Z.leb_le; lia.
Qed.

Lemma zpad_digits (w : nat) (n : Z) : all_chars is_digit (zpad w n) = true.
Proof.
  induction w as [|w IH]; [reflexivity|].
  cbn [zpad all_chars]. now rewrite digit_is_digit, IH.
Qed.

Lemma all_chars_append (p : ascii -> bool) (a b : string) :
  all_chars p (a +:+ b) = all_chars p a && all_chars p b.
Proof.
  induction a as [|c a IH]; [reflexivity|].
  rewrite append_cons. cbn [all_chars]. now rewrite IH, andb_assoc.
Qed.

Lemma strftime_digits (t : datetime) :
  all_chars is_digit (strftime_YmdHMSf t) = true.
Proof.
  unfold strftime_YmdHMSf. now rewrite !all_chars_append, !zpad_digits.
Qed.

Lemma digits_no_separator (s : string) :
  all_chars is_digit s = true ->
  all_chars (fun c => negb (is_separator c)) s = true.
Proof.
  induction s as [|c s IH]; [reflexivity|].
  cbn [all_chars]. intros [Hc Hs]%andb_true_iff.
  rewrite (IH Hs), andb_true_r.
  unfold is_digit, is_separator in *.
  apply andb_true_iff in Hc as [H1 _]. apply Z.leb_le in H1.
  apply negb_true_iff, Z.eqb_neq. lia.
Qed.

(** X9: the file a request writes lies directly in the output directory
    and its name owes nothing to the request: for a given working
    directory there is one prefix such that every path given to [tts.save]
    is that prefix followed by [tts_], twenty decimal digits and [.mp3], a
    name of 28 characters without any separator. *)
Theorem saved_name_is_safe (cwd : string) :
  exists dir,
    forall (o : Oracle) (job : TTSJob.t),
      Forall (fun fpath =>
                exists stem,
                  fpath = dir +:+ "tts_" +:+ stem +:+ ".mp3" /\
                  String.length stem = 20%nat /\
                  all_chars is_digit stem = true /\
                  String.length ("tts_" +:+ stem +:+ ".mp3") = 28%nat /\
                  all_chars (fun c => negb (is_separator c))
                    ("tts_" +:+ stem +:+ ".mp3") = true)
             (omap saved_path (run o (synthesize_speech cwd job) []).2).
Proof.
  destruct (path_join_relative (OUTPUT_DIR cwd)) as [dir Hdir].
  exists dir. intros o job.
  assert (Hname : forall t,
             exists stem,
               Py.path_join (OUTPUT_DIR cwd) ("tts_" +:+ strftime_YmdHMSf t +:+ ".mp3")
               = dir +:+ "tts_" +:+ stem +:+ ".mp3" /\
               String.length stem = 20%nat /\
               all_chars is_digit stem = true /\
               String.length ("tts_" +:+ stem +:+ ".mp3") = 28%nat /\
               all_chars (fun c => negb (is_separator c))
                 ("tts_" +:+ stem +:+ ".mp3") = true).
  { intros t. exists (strftime_YmdHMSf t).
    split; [apply Hdir, tts_name_relative|].
    split; [apply strftime_length|].
    split; [apply strftime_digits|].
    split; [rewrite !length_append, strftime_length; reflexivity|].
    rewrite !all_chars_append, (digits_no_separator _ (strftime_digits t)).
    reflexivity. }
  unfold synthesize_speech, saved_path.
  destruct (Py.truthy _); exec; observe; [| constructor].
  rewrite !ext_mp3.
  answer Htts; exec; observe; [| constructor].
  answer Hsave; exec; observe;
    (apply Forall_cons_2; [apply Hname | apply Forall_nil_2]).
Qed.

Example saved_name_sample :
  omap saved_path (run env_ok (synthesize_speech "/srv/app" job_hello) []).2
  = ["/srv/app/generated/tts_20261104093807123456.mp3"].
Proof. reflexivity. Qed.

(** ** The listings *)

(** X10: [serialize_id] never leaves an [_id] behind, leaves a document
    without [_id] as it is (its own [id], if any, included), touches no key
    other than [id] and [_id], and applying it twice changes nothing
    more. *)
Theorem serialize_id_hides_the_store_key (j : Doc) :
  serialize_id j !! "_id" = None /\
  (j !! "_id" = None -> serialize_id j = j) /\
  (forall k, k <> "id" -> k <> "_id" -> serialize_id j !! k = j !! k) /\
  serialize_id (serialize_id j) = serialize_id j.
Proof.
  assert (Hid : serialize_id j !! "_id" = None).
  { destruct (j !! "_id") as [oid|] eqn:Hj.
    - now destruct (serialize_id_exposes j oid Hj) as (_ & ? & _).
    - now rewrite serialize_id_without. }
  split; [exact Hid|]. split; [apply serialize_id_without|]. split.
  - intros k Hk Hk'. destruct (j !! "_id") as [oid|] eqn:Hj.
    + destruct (serialize_id_exposes j oid Hj) as (_ & _ & H). now apply H.
    + now rewrite serialize_id_without.
  - now apply serialize_id_without.
Qed.

(** A document that the store gives back with its [_id] added is listed
    as the same document with the [_id] printed under [id]. *)
Theorem serialize_id_of_stored (d : Doc) (oid : Value) :
  d !! "_id" = None ->
  serialize_id (<["_id" := oid]> d) = <["id" := VStr (str oid)]> d.
Proof.
  intros Hd. unfold serialize_id. rewrite lookup_insert_eq.
  rewrite delete_insert_eq. now rewrite delete_id.
Qed.

Lemma serialize_id_of_stored_witness :
  hello_document !! "_id" = None /\
  serialize_id (<["_id" := VObjectId "672890aa5f1c2d3e4f5a6b7c"]> hello_document)
  = <["id" := VStr "672890aa5f1c2d3e4f5a6b7c"]> hello_document.
Proof.
  split; [reflexivity|].
  exact (serialize_id_of_stored hello_document
           (VObjectId "672890aa5f1c2d3e4f5a6b7c") eq_refl).
Defined.

(** X11: synthesis and listing fit together.  If the store answers the
    insert of a synthesis with the id [h] and later gives the document back
    under the [_id] [h], the job listing shows one record whose [id],
    [text], [language], [format], [status] and [audio_url] are those of the
    synthesis response, and which has no [_id]. *)
Theorem listed_job_matches_response (cwd : string) (o o' : Oracle)
    (job : TTSJob.t) (r : TTSResponse.t) (d : Doc) (h : string)
    (limit : option Z) :
  (run o (synthesize_speech cwd job) []).1 = Ok r ->
  In (create_document "ttsjob" (Dict d) (Returns h))
     (run o (synthesize_speech cwd job) []).2 ->
  o' [] (GetDocuments "ttsjob" (Some (default 20 limit)))
  = Returns [<["_id" := VObjectId h]> d] ->
  exists record,
    (run o' (GET_api_jobs limit) []).1 = Ok [record] /\
    record !! "_id" = None /\
    record !! "id" = Some (VStr (TTSResponse.id r)) /\
    record !! "text" = Some (VStr (TTSResponse.text r)) /\
    record !! "language" = Some (VStr (TTSResponse.language r)) /\
    record !! "format" = Some (VStr (TTSResponse.format r)) /\
    record !! "status" = Some (VStr (TTSResponse.status r)) /\
    record !! "audio_url" = VStr <$> TTSResponse.audio_url r.
Proof.
  intros Hr Hin Hfound.
  destruct (job_document_matches_response cwd o job r Hr)
    as (d' & res & Hlog & Hdom & Htext & _ & Hlang & Hformat & Hstatus & Hurl & Hid).
  assert (Hsame : create_document "ttsjob" (Dict d) (Returns h)
                  = create_document "ttsjob" (Dict d') res).
  { assert (Hin' : In (create_document "ttsjob" (Dict d) (Returns h))
                      (List.filter is_insert
                         (run o (synthesize_speech cwd job) []).2))
      by (apply filter_In; split; [exact Hin | reflexivity]).
    rewrite Hlog in Hin'. destruct Hin' as [H | []]. now symmetry. }
  injection Hsame as <- <-.
  assert (Hno : d !! "_id" = None)
    by (apply not_elem_of_dom; rewrite Hdom; apply job_keys_exclude).
  exists (<["id" := VStr h]> d).
  split.
  - unfold GET_api_jobs, list_jobs. exec. rewrite Hfound. exec.
    cbn [map]. now rewrite (serialize_id_of_stored d (VObjectId h) Hno).
  - rewrite lookup_insert_eq, !lookup_insert_ne by discriminate.
    rewrite Hid. repeat split; assumption.
Qed.

Lemma listed_job_matches_response_witness :
  exists r record,
    (run env_ok (synthesize_speech "/srv/app" job_hello) []).1 = Ok r /\
    (run env_listing_hello (GET_api_jobs None) []).1 = Ok [record] /\
    record !! "id" = Some (VStr (TTSResponse.id r)) /\
    record !! "audio_url" = VStr <$> TTSResponse.audio_url r.
Proof.
  assert (Hin : In (create_document "ttsjob" (Dict hello_document)
                      (Returns "672890aa5f1c2d3e4f5a6b7c"))
                   (run env_ok (synthesize_speech "/srv/app" job_hello) []).2)
    by (do 3 right; left; reflexivity).
  destruct (listed_job_matches_response "/srv/app" env_ok env_listing_hello
              job_hello _ hello_document "672890aa5f1c2d3e4f5a6b7c" None
              eq_refl Hin eq_refl)
    as (record & Hlist & _ & Hid & _ & _ & _ & _ & Hurl).
  eexists _, record. split; [reflexivity|].
  split; [exact Hlist|]. split; [exact Hid | exact Hurl].
Defined.

Lemma pop_id_all (l : list Doc) :
  Forall (fun v : Doc => v !! "_id" = None) (map (fun v : Doc => delete "_id" v) l).
Proof.
  induction l as [|s l IH]; constructor; [apply lookup_delete_eq | exact IH].
Qed.

Lemma pop_id_keeps (l : list Doc) :
  Forall2 (fun (s v : Doc) => forall k, k <> "_id" -> v !! k = s !! k)
          l (map (fun v : Doc => delete "_id" v) l).
Proof.
  induction l as [|s l IH]; constructor; [| exact IH].
  intros k Hk. now apply lookup_delete_ne.
Qed.

(** X12: the voice listing never answers with an empty list and never
    shows an [_id]: it is the built-in catalog or a non-empty list of stored
    documents, each without that key and otherwise as the store gave it. *)
Theorem list_voices_never_empty (o : Oracle) :
  exists voices,
    (run o GET_api_voices []).1 = Ok voices /\
    voices <> [] /\
    Forall (fun v : Doc => v !! "_id" = None) voices /\
    (voices = DEFAULT_VOICES \/
     exists stored,
       o [DbHandle] (GetDocuments "voice" None) = Returns stored /\
       Forall2 (fun (s v : Doc) => forall k, k <> "_id" -> v !! k = s !! k)
               stored voices).
Proof.
  assert (Hdefault : DEFAULT_VOICES <> [] /\
                     Forall (fun v : Doc => v !! "_id" = None) DEFAULT_VOICES)
    by (split; [discriminate | repeat constructor]).
  destruct Hdefault as [Hne Hid].
  unfold GET_api_voices, list_voices. exec.
  answer Hdb; exec; [| exists DEFAULT_VOICES; auto].
  destruct (o [DbHandle] (GetDocuments "voice" None)) as [stored|e] eqn:Hdocs;
    exec; [| exists DEFAULT_VOICES; auto].
  destruct stored as [|v vs]; exec; [exists DEFAULT_VOICES; auto|].
  eexists. split; [reflexivity|]. split; [discriminate|]. split.
  - apply (pop_id_all (v :: vs)).
  - right. exists (v :: vs). split; [reflexivity|].
    apply (pop_id_keeps (v :: vs)).
Qed.

(** X13: the two listing handlers only read, and both return a value in
    every environment (neither raises).  The voice listing asks for the
    database handle and then at most once for the documents; the job
    listing asks exactly once for the documents; neither calls the engine,
    the clock or [create_document]. *)
Theorem listings_only_read (o : Oracle) (limit : option Z) :
  forallb is_read (run o GET_api_voices []).2 = true /\
  (1 <= List.length (run o GET_api_voices []).2 <= 2)%nat /\
  forallb is_read (run o (GET_api_jobs limit) []).2 = true /\
  List.length (run o (GET_api_jobs limit) []).2 = 1%nat /\
  (exists voices, (run o GET_api_voices []).1 = Ok voices) /\
  (exists records, (run o (GET_api_jobs limit) []).1 = Ok records).
Proof.
  unfold GET_api_voices, list_voices, GET_api_jobs, list_jobs. exec.
  destruct (o [] DbHandle); exec;
    [destruct (o [DbHandle] (GetDocuments "voice" None)) as [[|v vs]|e]; exec |];
    destruct (o [] (GetDocuments "ttsjob" (Some (default 20 limit)))); exec;
    cbn; repeat split; try lia; eexists; reflexivity.
Qed.

(** ** The schemas *)

Lemma text_member_cases (b : TTSJob.body) :
  (exists s, TTSJob.b_text b = Given s /\ (1 <= String.length s <= 2000)%nat /\
             length_between "text" 1 2000 (required "text" (TTSJob.b_text b)) = inr s) \/
  ((~ exists s, TTSJob.b_text b = Given s /\ (1 <= String.length s <= 2000)%nat) /\
   length_between "text" 1 2000 (required "text" (TTSJob.b_text b)) = inl ["text"]).
Proof.
  unfold length_between, required.
  destruct (TTSJob.b_text b) as [| |s].
  1,2: right; split; [intros (s & Hs & _); discriminate | reflexivity].
  destruct (Nat.leb_spec 1 (String.length s)) as [H1|H1];
    destruct (Nat.leb_spec (String.length s) 2000) as [H2|H2]; cbn [andb];
    [left; exists s; repeat split; (reflexivity || lia) | right ..];
    (split; [intros (s' & [= <-] & Hs); lia | reflexivity]).
Qed.

Lemma defaulted_cases (name d : string) (f : field string) :
  (f <> Null /\
   defaulted name d f = inr (match f with Given v => v | _ => d end)) \/
  (f = Null /\ defaulted name d f = inl [name]).
Proof. destruct f; cbn; [left | right | left]; split; congruence. Qed.

(** X14: a body is a [TTSJob] exactly when its [text] is a string of 1 to
    2000 characters (counted before any trimming) and neither [language]
    nor [format] is [null].  An accepted body keeps its text as sent and
    gets [en] and [mp3] for an absent language and format; a refused body
    is reported with exactly its failing members. *)
Theorem validate_TTSJob_spec (b : TTSJob.body) :
  let text_ok :=
    exists s, TTSJob.b_text b = Given s /\ (1 <= String.length s <= 2000)%nat in
  match validate_TTSJob b with
  | inr job =>
      text_ok /\ TTSJob.b_language b <> Null /\ TTSJob.b_format b <> Null /\
      TTSJob.b_text b = Given (TTSJob.text job) /\
      TTSJob.voice_id job = optional (TTSJob.b_voice_id b) /\
      TTSJob.language job
      = match TTSJob.b_language b with Given l => l | _ => "en" end /\
      TTSJob.format job
      = match TTSJob.b_format b with Given f => f | _ => "mp3" end
  | inl errors =>
      errors <> [] /\
      (In "text" errors <-> ~ text_ok) /\
      (In "language" errors <-> TTSJob.b_language b = Null) /\
      (In "format" errors <-> TTSJob.b_format b = Null) /\
      (forall k, In k errors -> k = "text" \/ k = "language" \/ k = "format")
  end.
Proof.
  intros text_ok. subst text_ok. unfold validate_TTSJob.
  destruct (text_member_cases b) as [(s & Ht & Hlen & ->) | [Hno ->]];
    destruct (defaulted_cases "language" "en" (TTSJob.b_language b))
      as [[Hl ->] | [Hl ->]];
    destruct (defaulted_cases "format" "mp3" (TTSJob.b_format b))
      as [[Hf ->] | [Hf ->]];
    cbn [errors_of app TTSJob.text TTSJob.voice_id TTSJob.language TTSJob.format].
  1: { repeat split; eauto. }
  all: split; [discriminate|];
    split; [split; [try (intros _; exact Hno); cbn; intuition discriminate
                   | intros H; try (now left); exfalso; apply H; eauto] |];
    split; [split; [try (intros _; exact Hl); cbn; intros H; exfalso;
                    intuition discriminate
                   | intros H; cbn; try tauto; congruence] |];
    split; [split; [try (intros _; exact Hf); cbn; intros H; exfalso;
                    intuition discriminate
                   | intros H; cbn; try tauto; congruence] |];
    cbn; intros k Hk; intuition (subst; auto).
Qed.

(** ** Registering a voice *)

(** X15: whatever a voice registration hands to the store comes from the
    body: the one call goes to the collection [voice] with a model whose
    [name], [language] and [description] are the body's as sent, whose
    [avatar_url] is the [Url] that the validator made of the body's (not the
    string as sent), or [None], and whose [samples] is the empty list when
    the body has none.  The reply is the id the store returned, or a 500
    with the store's message: unlike a synthesis, a registration does not
    hide a failed insert. *)
Theorem registered_voice_is_the_body (HttpUrl : string -> option string)
    (o : Oracle) (b : Voice.body) (coll : string) (data : Payload)
    (res : result string) :
  In (create_document coll data res) (run o (POST_api_voices HttpUrl b) []).2 ->
  exists v,
    run o (POST_api_voices HttpUrl b) []
    = (match res with
       | Returns vid => Ok vid
       | Raises e => HTTPException 500 (message_of e)
       end,
       [create_document "voice" (Model v) res]) /\
    coll = "voice" /\ data = Model v /\
    Voice.b_name b = Given (Voice.name v) /\
    Voice.b_language b = Given (Voice.language v) /\
    Voice.description v = optional (Voice.b_description b) /\
    match Voice.b_avatar_url b with
    | Given sent =>
        exists url, HttpUrl sent = Some url /\ Voice.avatar_url v = Some url
    | _ => Voice.avatar_url v = None
    end /\
    Voice.samples v
    = match Voice.b_samples b with
      | Absent => Some []
      | Null => None
      | Given l => Some l
      end.
Proof.
  unfold POST_api_voices, validate_Voice, optional_url, required, create_voice.
  destruct (Voice.b_name b) as [| |n], (Voice.b_language b) as [| |l];
    destruct (Voice.b_avatar_url b) as [| |u];
    try destruct (HttpUrl u) as [url|] eqn:Hu;
    exec; try (intros []);
    answer Hins; exec; intros [H | []]; injection H as <- <- <-;
    (eexists; split; [reflexivity|]);
    cbn [Voice.name Voice.language Voice.description Voice.avatar_url
         Voice.samples optional];
    repeat split; try reflexivity;
    exists url; now split.
Qed.

(** A body with an avatar: the store gets the normal form of the URL, and
    its refusal of the write comes back as a 500. *)
Lemma registered_voice_is_the_body_witness :
  exists v,
    run env_insert_fails (POST_api_voices any_url voice_with_avatar) []
    = (HTTPException 500 "write rejected",
       [create_document "voice" (Model v) (Raises (Exc "write rejected"))]) /\
    Voice.avatar_url v = Some "https://example.com/" /\
    Voice.samples v = Some [].
Proof.
  assert (Hin : In (create_document "voice"
                      (Model {| Voice.name := "Lina"; Voice.description := None;
                                Voice.language := "de";
                                Voice.avatar_url := Some "https://example.com/";
                                Voice.samples := Some [] |})
                      (Raises (Exc "write rejected")))
                   (run env_insert_fails
                      (POST_api_voices any_url voice_with_avatar) []).2)
    by (left; reflexivity).
  destruct (registered_voice_is_the_body any_url env_insert_fails
              voice_with_avatar _ _ _ Hin)
    as (v & Hrun & _ & _ & _ & _ & _ & Havatar & Hsamples).
  exists v. split; [exact Hrun|]. split; [| exact Hsamples].
  cbn in Havatar. destruct Havatar as (url & [= <-] & Hv). exact Hv.
Defined.
